(** * Fixed-layout document generator (app/main.py): model and properties

    The service is a chain of I/O steps: store an uploaded template, load a
    context mapping from a request, render the template, optionally convert
    the result to PDF, package and respond.  The development below embeds
    the handlers of [app/main.py] over an explicit file store and an
    exception result, with the collaborators the code calls but does not
    implement (the JSON parser, the docx templating engine, the converter
    process) gathered in one interface. *)

From Stdlib Require Import ZArith String Ascii DecimalString Floats.SpecFloat.
From stdpp Require Import gmap strings list fin_maps.

Local Open Scope string_scope.
Local Open Scope Z_scope.

(* ===================================================================== *)
(** ** Python strings *)
(* ===================================================================== *)

Module Str.

(** [str.lower()], on the ASCII letters of a UTF-8 text.  The program
    only tests the result for the suffix [.docx], and no character
    outside ASCII has a lower case that is one of the characters of
    [.docx], so the other characters can stay as they are. *)
Definition lower_ascii (a : ascii) : ascii :=
  let n := N_of_ascii a in
  if ((65 <=? n) && (n <=? 90))%N then ascii_of_N (n + 32) else a.

Fixpoint lower (s : string) : string :=
  match s with
  | EmptyString => EmptyString
  | String a s' => String (lower_ascii a) (lower s')
  end.

(** [s.endswith(suffix)] *)
Definition endswith (s suffix : string) : bool :=
  let n := String.length s in
  let k := String.length suffix in
  (k <=? n)%nat && String.eqb (substring (n - k) k s) suffix.

(** [sub in s] *)
Fixpoint contains (sub s : string) : bool :=
  String.prefix sub s ||
  match s with
  | EmptyString => false
  | String _ s' => contains sub s'
  end.

(** [s.rfind(c)] for a one-character needle: [None] stands for -1. *)
Fixpoint rfind (c : ascii) (s : string) : option nat :=
  match s with
  | EmptyString => None
  | String a s' =>
      match rfind c s' with
      | Some i => Some (S i)
      | None => if Ascii.eqb a c then Some 0%nat else None
      end
  end.

(** [s.replace(old, new)] for a non-empty [old]: occurrences are replaced
    from the left and do not overlap.  [skip] counts the characters of a
    matched occurrence that are still to be dropped. *)
Fixpoint replace_from (old new : string) (skip : nat) (s : string) : string :=
  match s with
  | EmptyString => EmptyString
  | String a s' =>
      match skip with
      | S k => replace_from old new k s'
      | O =>
          if String.prefix old s
          then new ++ replace_from old new (String.length old - 1) s'
          else String a (replace_from old new 0 s')
      end
  end.

Definition replace (old new s : string) : string := replace_from old new 0 s.

(** [s.split(c, 1)] for a one-character separator, when it yields two
    parts: the text before the first [c] and the text after it.  [None]
    stands for the one-part result of a text without [c]. *)
Fixpoint split_once (c : ascii) (s : string) : option (string * string) :=
  match s with
  | EmptyString => None
  | String a s' =>
      if Ascii.eqb a c then Some (EmptyString, s')
      else match split_once c s' with
           | Some (l, r) => Some (String a l, r)
           | None => None
           end
  end.

(** [a or b] on strings: the first operand unless it is empty. *)
Definition or_else (a b : string) : string :=
  match a with
  | EmptyString => b
  | _ => a
  end.

End Str.

(* ===================================================================== *)
(** ** Python values *)
(* ===================================================================== *)

(** The object FastAPI hands to [upload_template]: a client-side file name
    and the uploaded bytes. *)
Record UploadFile := { filename : string; file : string }.

(** The values a handler can receive as [request_data: Any]: what
    [json.loads] builds (None, bool, int, float, str, list, dict), and what
    a Starlette form holds (a [FormData] multi-dict of str or UploadFile). *)
#[warnings="-register-all"]
Inductive pyval : Type :=
| PNone
| PBool (b : bool)
| PInt (z : Z)
| PFloat (f : spec_float)
| PStr (s : string)
| PList (l : list pyval)
| PDict (d : gmap string pyval)
| PUploadFile (u : UploadFile)
| PFormData (items : list (string * pyval)).

(** [isinstance(v, dict)] *)
Definition isinstance_dict (v : pyval) : bool :=
  match v with
  | PDict _ => true
  | _ => false
  end.

(** [hasattr(v, "get")]: dicts and form multi-dicts have a [get]. *)
Definition hasattr_get (v : pyval) : bool :=
  match v with
  | PDict _ | PFormData _ => true
  | _ => false
  end.

(** [FormData.get]: the multi-dict keeps the last value given for a key. *)
Fixpoint multidict_get (items : list (string * pyval)) (key : string) : option pyval :=
  match items with
  | [] => None
  | (k, v) :: rest =>
      match multidict_get rest key with
      | Some w => Some w
      | None => if String.eqb k key then Some v else None
      end
  end.

(** [v.get(key, default)] for a value that has a [get]. *)
Definition py_get (v : pyval) (key : string) (default : pyval) : pyval :=
  match v with
  | PDict d => match d !! key with Some w => w | None => default end
  | PFormData items => match multidict_get items key with Some w => w | None => default end
  | _ => default
  end.

Definition float_is_zero (f : spec_float) : bool :=
  match f with
  | S754_zero _ => true
  | _ => false
  end.

(** [bool(v)]: Python truthiness. *)
Definition py_bool (v : pyval) : bool :=
  match v with
  | PNone => false
  | PBool b => b
  | PInt z => negb (z =? 0)
  | PFloat f => negb (float_is_zero f)
  | PStr s => negb (String.eqb s "")
  | PList l => match l with [] => false | _ => true end
  | PDict d => negb (bool_decide (size d = 0%nat))
  | PUploadFile _ => true
  | PFormData items => match items with [] => false | _ => true end
  end.

(** The binary64 float 1.0 in canonical form. *)
Definition float_one : spec_float := S754_finite false 4503599627370496 (-52).

(** [v == True]: a bool compares as the integer it is, so 1 and 1.0 are
    equal to True. *)
Definition py_eq_True (v : pyval) : bool :=
  match v with
  | PBool b => b
  | PInt z => z =? 1
  | PFloat f => SFeqb f float_one
  | _ => false
  end.

(** [v == s] for a string constant [s]. *)
Definition py_eq_str (v : pyval) (s : string) : bool :=
  match v with
  | PStr t => String.eqb t s
  | _ => false
  end.

(** Values without a hash: looking one up in a set raises TypeError. *)
Definition unhashable (v : pyval) : bool :=
  match v with
  | PList _ | PDict _ | PFormData _ => true
  | _ => false
  end.

Definition type_name (v : pyval) : string :=
  match v with
  | PNone => "NoneType"
  | PBool _ => "bool"
  | PInt _ => "int"
  | PFloat _ => "float"
  | PStr _ => "str"
  | PList _ => "list"
  | PDict _ => "dict"
  | PUploadFile _ => "UploadFile"
  | PFormData _ => "FormData"
  end.

(** What a field of a submitted form holds: text, or an uploaded file. *)
Inductive form_value := FormText (s : string) | FormFile (u : UploadFile).

Definition form_pyval (v : form_value) : pyval :=
  match v with
  | FormText s => PStr s
  | FormFile u => PUploadFile u
  end.

(* ===================================================================== *)
(** ** Paths and the file store *)
(* ===================================================================== *)

(** The three directories the module creates under [BASE_DIR / "data"]. *)
Inductive directory := UPLOAD_DIR | OUTPUT_DIR | TMP_DIR.

#[global] Instance directory_eq_dec : EqDecision directory.
Proof. solve_decision. Defined.

#[global] Instance directory_countable : Countable directory.
Proof.
  refine (inj_countable'
            (fun d => match d with UPLOAD_DIR => 0%nat | OUTPUT_DIR => 1%nat | TMP_DIR => 2%nat end)
            (fun n => match n with O => UPLOAD_DIR | S O => OUTPUT_DIR | _ => TMP_DIR end) _).
  by intros [].
Defined.

(** A path is one of the directories and a final component. *)
Record Path := mkPath { parent : directory; name : string }.

#[global] Instance Path_eq_dec : EqDecision Path.
Proof. solve_decision. Defined.

#[global] Instance Path_countable : Countable Path.
Proof.
  refine (inj_countable' (fun p => (parent p, name p)) (fun dn => mkPath dn.1 dn.2) _).
  by intros [].
Defined.

Notation "d // n" := (mkPath d n) (at level 40, left associativity).

Definition TEMPLATE_NAME : string := "template.docx".

Definition dir_str (base : string) (d : directory) : string :=
  match d with
  | UPLOAD_DIR => base ++ "/data/uploads"
  | OUTPUT_DIR => base ++ "/data/outputs"
  | TMP_DIR => base ++ "/data/tmp"
  end.

(** [str(path)] *)
Definition path_str (base : string) (p : Path) : string :=
  dir_str base (parent p) ++ "/" ++ name p.

(** Position of the dot that starts the suffix of a final component, as
    pathlib finds it: the last dot, unless it is the first or the last
    character. *)
Definition suffix_index (n : string) : option nat :=
  match Str.rfind "." n with
  | Some i => if ((0 <? i) && (i <? String.length n - 1))%nat then Some i else None
  | None => None
  end.

(** [path.stem] *)
Definition stem (p : Path) : string :=
  match suffix_index (name p) with
  | Some i => substring 0 i (name p)
  | None => name p
  end.

(** What a file holds: plain bytes, or a zip archive given by its members
    (archive name and contents) in the order they were written. *)
#[warnings="-register-all"]
Inductive content : Type :=
| Bytes (data : string)
| ZipArchive (members : list (string * content)).

(** The file store: the files present under the three directories. *)
Abbreviation FS := (gmap Path content).

(* ===================================================================== *)
(** ** Exceptions and the handler monad *)
(* ===================================================================== *)

(** The exceptions that can leave a handler or the sending of its
    response.  [HTTPException] is the class of FastAPI, the one
    [app/main.py] raises; [StarletteHTTPException] is its base class,
    which the framework raises itself; [MultipartParseError] is raised by
    the multipart parser on a body it cannot follow. *)
Inductive exn :=
| HTTPException (status_code : Z) (detail : string)
| StarletteHTTPException (status_code : Z) (detail : string)
| JSONDecodeError (msg : string)
| TypeError (msg : string)
| ValueError (msg : string)
| FileNotFoundError (what : string)
| MultipartParseError (msg : string)
| RuntimeError (msg : string).

Inductive result (A : Type) :=
| Ok (a : A)
| Raise (e : exn).
Arguments Ok {A} a.
Arguments Raise {A} e.

(** A handler step runs on the file store and returns or raises; what it
    wrote before raising stays written. *)
Definition M (A : Type) : Type := FS -> result A * FS.

Definition ret {A} (a : A) : M A := fun fs => (Ok a, fs).

Definition raise {A} (e : exn) : M A := fun fs => (Raise e, fs).

Definition bind {A B} (m : M A) (k : A -> M B) : M B :=
  fun fs =>
    match m fs with
    | (Ok a, fs') => k a fs'
    | (Raise e, fs') => (Raise e, fs')
    end.

Definition lift {A} (r : result A) : M A := fun fs => (r, fs).

Notation "'let*' x ':=' m 'in' k" := (bind m (fun x => k))
  (at level 10, x pattern, m at level 100, k at level 200).
Notation "m ';;' k" := (bind m (fun _ => k))
  (at level 100, k at level 200, right associativity).

(** [path.exists()] *)
Definition exists_ (p : Path) : M bool :=
  fun fs => (Ok (bool_decide (is_Some (fs !! p))), fs).

(** Reading a file that is not there raises. *)
Definition read (p : Path) : M content :=
  fun fs =>
    match fs !! p with
    | Some c => (Ok c, fs)
    | None => (Raise (FileNotFoundError (name p)), fs)
    end.

(** Opening for writing creates or replaces the file. *)
Definition write (p : Path) (c : content) : M unit :=
  fun fs => (Ok tt, <[p := c]> fs).

(** [path.unlink(missing_ok=True)] *)
Definition unlink_missing_ok (p : Path) : M unit :=
  fun fs => (Ok tt, delete p fs).

(** [path.with_suffix(s)]: pathlib refuses a path with an empty name. *)
Definition with_suffix (p : Path) (s : string) : result Path :=
  match name p with
  | EmptyString => Raise (ValueError "path has an empty name")
  | _ =>
      match suffix_index (name p) with
      | Some i => Ok (parent p // (substring 0 i (name p) ++ s))
      | None => Ok (parent p // (name p ++ s))
      end
  end.

(** The response of the framework to an exception leaving a handler: an
    [HTTPException], of either class, carries its own status, anything
    else is answered with 500 Internal Server Error. *)
Definition response_status (e : exn) : Z :=
  match e with
  | HTTPException status_code _ => status_code
  | StarletteHTTPException status_code _ => status_code
  | _ => 500
  end.

(* ===================================================================== *)
(** ** The clock *)
(* ===================================================================== *)

(** A [datetime.datetime] value, as [datetime.now()] returns it. *)
Record datetime := {
  year : Z; month : Z; day : Z;
  hour : Z; minute : Z; second : Z;
  microsecond : Z
}.

(** The ranges of the fields of a datetime, for a clock in the years of
    four digits. *)
Definition datetime_ok (t : datetime) : Prop :=
  1000 <= year t <= 9999 /\ 1 <= month t <= 12 /\ 1 <= day t <= 31 /\
  0 <= hour t <= 23 /\ 0 <= minute t <= 59 /\ 0 <= second t <= 59 /\
  0 <= microsecond t <= 999999.

(** The character of the last decimal digit of [d]. *)
Definition digit (d : Z) : ascii := ascii_of_N (Z.to_N (48 + d mod 10)).

(** A number as two decimal digits. *)
Definition pad2 (n : Z) : string :=
  String (digit (n / 10)) (String (digit n) EmptyString).

(** A number as four decimal digits. *)
Definition pad4 (n : Z) : string :=
  String (digit (n / 1000)) (String (digit (n / 100))
    (String (digit (n / 10)) (String (digit n) EmptyString))).

(** [t.strftime("%Y%m%d%H%M%S")]: a year of four digits, the other
    directives zero-padded to two; the microsecond does not appear. *)
Definition strftime_YmdHMS (t : datetime) : string :=
  pad4 (year t) ++ pad2 (month t) ++ pad2 (day t) ++
  pad2 (hour t) ++ pad2 (minute t) ++ pad2 (second t).

(* ===================================================================== *)
(** ** Collaborators *)
(* ===================================================================== *)

(** How a Jinja environment treats a name that the context does not
    define: [Undefined] renders it as the empty string, [StrictUndefined]
    raises. *)
Inductive undefined_policy := Undefined | StrictUndefined.

(** [jinja2.Environment(autoescape=..., undefined=...)] *)
Record Environment := { autoescape : bool; undefined : undefined_policy }.

(** [subprocess.CompletedProcess] with captured text output. *)
Record CompletedProcess := { returncode : Z; stdout : string; stderr : string }.

(** How the multipart parser of the framework fails: with its own
    [MultiPartException] (no boundary, a part without a name, too many or
    too large parts), or with the [MultipartParseError] of the parsing
    library on a body that does not follow the boundary. *)
Inductive multipart_failure :=
| MultiPartException (message : string)
| ParseFailure (msg : string).

(** What [FileResponse._parse_range_header] makes of a [Range] header:
    it returns byte ranges, or raises [MalformedRangeHeader] or
    [RangeNotSatisfiable]. *)
Inductive range_decision :=
| ServeRanges (ranges : list (nat * nat))
| MalformedRangeHeader
| RangeNotSatisfiable.

(** What the module imports and calls without implementing it.

    - [BASE_DIR]: where the package is installed.
    - [json_loads]: [json.loads] on a str; the value, or the text of the
      [JSONDecodeError].
    - [document], [DocxTemplate], [docx_render], [docx_save]: the docxtpl
      engine; building the template object and rendering return the
      document or the text of the exception they raise, saving yields the
      bytes written.  The module guards the constructor with a
      [try]/[except], so the interface lets it raise; the constructor of
      docxtpl itself only records the file and reads it when rendering.
    - [soffice]: one run of the converter on a command line and the
      current files; [None] when the process cannot be started, otherwise
      the completed process and the PDF bytes it produced, if any.
    - [parse_options_header]: the media type the framework reads off a
      content-type header (the empty text when there is no header).
    - [MultiPartParser], [FormParser]: the form parsers of the framework
      on the headers and the body of a request; the fields in the order
      they were sent.  The parser of urlencoded bodies refuses nothing.
    - [should_use_range]: whether an [If-Range] header names the
      [last-modified] or the [etag] of the file about to be sent.
    - [byte_ranges]: [_parse_range_header] after its first step, on the
      unit and the range part of a [Range] header and the file about to
      be sent. *)
Class Collaborators := {
  BASE_DIR : string;
  json_loads : string -> pyval + string;
  document : Type;
  DocxTemplate : content -> document + string;
  docx_render : document -> gmap string pyval -> Environment -> document + string;
  docx_save : document -> string;
  soffice : list string -> FS -> option (CompletedProcess * option string);
  parse_options_header : option string -> string;
  MultiPartParser : gmap string string -> string
                    -> list (string * form_value) + multipart_failure;
  FormParser : gmap string string -> string -> list (string * string);
  should_use_range : string -> content -> bool;
  byte_ranges : string -> string -> content -> range_decision
}.

(* ===================================================================== *)
(** ** The handlers of app/main.py *)
(* ===================================================================== *)

Section Handlers.
Context `{Collaborators}.

(** [JSONResponse(content)] *)
Inductive JSONResponse := mkJSONResponse (content_ : gmap string pyval).

(** [upload_template] *)
Definition upload_template (file_ : UploadFile) : M JSONResponse :=
  if negb (Str.endswith (Str.lower (filename file_)) ".docx")
  then raise (HTTPException 400 "僅接受 .docx 母版檔案")
  else
    let destination := UPLOAD_DIR // TEMPLATE_NAME in
    write destination (Bytes (file file_)) ;;
    ret (mkJSONResponse
           (<["message" := PStr "母版已更新"]>
              (<["path" := PStr (path_str BASE_DIR destination)]> ∅))).

(** [json.loads(obj)]: only text is parsed. *)
Definition json_loads_obj (obj : pyval) : result pyval :=
  match obj with
  | PStr s =>
      match json_loads s with
      | inl v => Ok v
      | inr msg => Raise (JSONDecodeError msg)
      end
  | _ => Raise (TypeError ("the JSON object must be str, bytes or bytearray, not "
                            ++ type_name obj))
  end.

(** [v in {"on", True, "true"}] *)
Definition in_on_True_true (v : pyval) : result bool :=
  if unhashable v
  then Raise (TypeError ("unhashable type: '" ++ type_name v ++ "'"))
  else Ok (py_eq_str v "on" || py_eq_True v || py_eq_str v "true").

(** [_load_context_from_request] *)
Definition _load_context_from_request (content_type : string) (request_data : pyval)
  : result (gmap string pyval * bool) :=
  if Str.contains "application/json" content_type then
    if negb (isinstance_dict request_data)
    then Raise (HTTPException 400 "JSON 請求格式錯誤")
    else
      let context := py_get request_data "data" PNone in
      let generate_pdf := py_bool (py_get request_data "generate_pdf" (PBool false)) in
      match context with
      | PDict context => Ok (context, generate_pdf)
      | _ => Raise (HTTPException 400 "data 欄位必須是 JSON 物件")
      end
  else
    if negb (hasattr_get request_data)
    then Raise (HTTPException 400 "表單資料解析失敗")
    else
      let json_text := py_get request_data "json_data" PNone in
      if negb (py_bool json_text)
      then Raise (HTTPException 400 "缺少 json_data")
      else
        match json_loads_obj json_text with
        | Raise (JSONDecodeError exc) => Raise (HTTPException 400 ("JSON 解析錯誤: " ++ exc))
        | Raise e => Raise e
        | Ok context =>
            match in_on_True_true (py_get request_data "generate_pdf" PNone) with
            | Raise e => Raise e
            | Ok generate_pdf =>
                match context with
                | PDict context => Ok (context, generate_pdf)
                | _ => Raise (HTTPException 400 "JSON 根層級必須是物件")
                end
            end
        end.

(** [_render_docx]; [now] is what [datetime.now()] returns in this call.
    [DocxTemplate(template_path)] is given the contents of the file the
    path names. *)
Definition _render_docx (context : gmap string pyval) (now : datetime) : M Path :=
  let template_path := UPLOAD_DIR // TEMPLATE_NAME in
  let* present := exists_ template_path in
  if negb present
  then raise (HTTPException 400 "尚未上傳母版 template.docx")
  else
    let* template := read template_path in
    match DocxTemplate template with
    | inr exc => raise (HTTPException 500 ("無法載入母版: " ++ exc))
    | inl document =>
        let jinja_env := {| autoescape := false; undefined := StrictUndefined |} in
        match docx_render document context jinja_env with
        | inr exc => raise (HTTPException 400 ("產生內容失敗: " ++ exc))
        | inl document =>
            let timestamp := strftime_YmdHMS now in
            let output_name := "output_" ++ timestamp ++ ".docx" in
            let output_path := OUTPUT_DIR // output_name in
            write output_path (Bytes (docx_save document)) ;;
            ret output_path
        end
    end.

(** [subprocess.run(command, capture_output=True, text=True)] for the
    converter: it blocks until the process exits; a PDF the converter
    produces lands in the output directory under the name of the input
    with its extension replaced. *)
Definition subprocess_run (command : list string) (input : Path) : M CompletedProcess :=
  fun fs =>
    match soffice command fs with
    | None => (Raise (FileNotFoundError "soffice"), fs)
    | Some (completed, None) => (Ok completed, fs)
    | Some (completed, Some pdf) =>
        (Ok completed, <[OUTPUT_DIR // (stem input ++ ".pdf") := Bytes pdf]> fs)
    end.

(** [_convert_to_pdf] *)
Definition _convert_to_pdf (docx_path : Path) : M Path :=
  let* pdf := lift (with_suffix docx_path ".pdf") in
  let pdf_name := name pdf in
  let pdf_path := OUTPUT_DIR // pdf_name in
  let command :=
    [ "soffice"; "--headless"; "--convert-to"; "pdf";
      path_str BASE_DIR docx_path; "--outdir"; dir_str BASE_DIR OUTPUT_DIR ] in
  let* result := subprocess_run command docx_path in
  if negb (returncode result =? 0)
  then raise (HTTPException 500
                ("PDF 轉換失敗: " ++ Str.or_else (stderr result) (stdout result)))
  else
    let* present := exists_ pdf_path in
    if negb present
    then raise (HTTPException 500 "PDF 檔案未生成")
    else ret pdf_path.

(** The request as it is received: the headers (keyed by their lower-case
    names, as the framework looks them up) and the raw body. *)
Record Request := {
  headers : gmap string string;
  body : string
}.

(** [await request.json()]: [json.loads] on the body, nothing caught. *)
Definition request_json (request : Request) : M pyval :=
  lift (json_loads_obj (PStr (body request))).

(** [Request._get_form] of the framework.  The media type of the
    content-type header decides: a multipart body goes to the multipart
    parser, whose [MultiPartException] becomes an HTTP 400 of the
    framework while any other exception of the parser passes through; a
    urlencoded body goes to the form parser; under any other content type
    the body is not read and the form has no field. *)
Definition _get_form (request : Request) : result (list (string * pyval)) :=
  let content_type_header := headers request !! "content-type" in
  let content_type := parse_options_header content_type_header in
  if String.eqb content_type "multipart/form-data" then
    match MultiPartParser (headers request) (body request) with
    | inl items => Ok (map (fun kv => (kv.1, form_pyval kv.2)) items)
    | inr (MultiPartException message) => Raise (StarletteHTTPException 400 message)
    | inr (ParseFailure msg) => Raise (MultipartParseError msg)
    end
  else if String.eqb content_type "application/x-www-form-urlencoded" then
    Ok (map (fun kv => (kv.1, PStr kv.2)) (FormParser (headers request) (body request)))
  else Ok [].

(** [await request.form()] *)
Definition request_form (request : Request) : M pyval :=
  let* items := lift (_get_form request) in
  ret (PFormData items).

(** [BackgroundTask(lambda: zip_path.unlink(missing_ok=True))] *)
Inductive BackgroundTask := UnlinkMissingOk (p : Path).

(** [FileResponse(path=..., media_type=..., filename=..., background=...)] *)
Record FileResponse := {
  resp_path : Path;
  resp_media_type : string;
  resp_filename : string;
  resp_background : option BackgroundTask
}.

(** [archive.write(src, arcname=arcname)] on the archive open at [zip_path] *)
Definition archive_write (zip_path src : Path) (arcname : string) : M unit :=
  let* data := read src in
  fun fs =>
    match fs !! zip_path with
    | Some (ZipArchive members) =>
        (Ok tt, <[zip_path := ZipArchive (members ++ [(arcname, data)])]> fs)
    | _ => (Raise (ValueError "archive is not open"), fs)
    end.

Definition DOCX_MEDIA_TYPE : string :=
  "application/vnd.openxmlformats-officedocument.wordprocessingml.document".

(** [generate] *)
Definition generate (request : Request) (now : datetime) : M FileResponse :=
  let content_type :=
    match headers request !! "content-type" with Some v => v | None => "" end in
  let* (context, generate_pdf) :=
    (if Str.contains "application/json" content_type then
       let* payload := request_json request in
       lift (_load_context_from_request content_type payload)
     else
       let* form_data := request_form request in
       lift (_load_context_from_request content_type form_data)) in
  let* docx_path := _render_docx context now in
  if negb generate_pdf
  then ret {| resp_path := docx_path;
              resp_media_type := DOCX_MEDIA_TYPE;
              resp_filename := name docx_path;
              resp_background := None |}
  else
    let* pdf_path := _convert_to_pdf docx_path in
    let timestamp := Str.replace "output_" "" (stem docx_path) in
    let zip_path := TMP_DIR // ("output_" ++ timestamp ++ ".zip") in
    write zip_path (ZipArchive []) ;;
    archive_write zip_path docx_path (name docx_path) ;;
    archive_write zip_path pdf_path (name pdf_path) ;;
    ret {| resp_path := zip_path;
           resp_media_type := "application/zip";
           resp_filename := name zip_path;
           resp_background := Some (UnlinkMissingOk zip_path) |}.

(** Running a background task. *)
Definition run_background (task : option BackgroundTask) : M unit :=
  match task with
  | Some (UnlinkMissingOk p) => unlink_missing_ok p
  | None => ret tt
  end.

(** What the client of a [FileResponse] is sent: the whole file (status
    200), byte ranges of it (status 206), or a refusal in plain text with
    the given status. *)
Inductive delivery :=
| WholeFile (file_ : content)
| FileRanges (ranges : list (nat * nat)) (file_ : content)
| Refusal (status_code : Z).

(** [FileResponse._parse_range_header]: a header that does not split at
    [=] into a unit and a range part is malformed; the rest is the
    framework's reading of the two parts. *)
Definition _parse_range_header (http_range : string) (file_ : content) : range_decision :=
  match Str.split_once "=" http_range with
  | None => MalformedRangeHeader
  | Some (units, range_) => byte_ranges units range_ file_
  end.

(** [http_if_range is not None and not self._should_use_range(http_if_range)] *)
Definition range_ruled_out (http_if_range : option string) (file_ : content) : bool :=
  match http_if_range with
  | Some v => negb (should_use_range v file_)
  | None => false
  end.

(** Sending a [FileResponse] in answer to [request]
    ([FileResponse.__call__]).  The framework raises if the file is not
    there.  Without a [Range] header, or with one that an [If-Range]
    header rules out, the whole file is the body; otherwise the byte
    ranges asked for are.  The background task runs once the body has
    been sent.  A [Range] header that is malformed or cannot be
    satisfied is answered with status 400 or 416, and the framework
    returns there: the background task is not run. *)
Definition send (request : Request) (response : FileResponse) : M delivery :=
  let* present := exists_ (resp_path response) in
  if negb present
  then raise (RuntimeError ("File at path " ++ path_str BASE_DIR (resp_path response)
                            ++ " does not exist."))
  else
    let* file_ := read (resp_path response) in
    let http_if_range := headers request !! "if-range" in
    match headers request !! "range" with
    | None =>
        run_background (resp_background response) ;;
        ret (WholeFile file_)
    | Some http_range =>
        if range_ruled_out http_if_range file_
        then
          run_background (resp_background response) ;;
          ret (WholeFile file_)
        else
          match _parse_range_header http_range file_ with
          | MalformedRangeHeader => ret (Refusal 400)
          | RangeNotSatisfiable => ret (Refusal 416)
          | ServeRanges ranges =>
              run_background (resp_background response) ;;
              ret (FileRanges ranges file_)
          end
    end.

End Handlers.

(* ===================================================================== *)
(** ** A small instance of the collaborators *)
(* ===================================================================== *)

(** Concrete collaborators on which the handlers can be run: a template
    engine for text with [{{name}}] placeholders, the JSON parser on the
    handful of texts the examples submit, converters with a fixed
    outcome, and the form parsers of the framework on the bodies the
    examples send. *)
Module Sample.

(** The double quote character, and a quoted word. *)
Definition dq : string := String (ascii_of_nat 34) EmptyString.
Definition quoted (s : string) : string := dq ++ s ++ dq.

(** A template body: literal text and placeholders. *)
Inductive piece := Lit (text : string) | Var (name : string).

Inductive scan_state := InText | Open1 | InName | Close1.

Definition snoc (acc : string) (a : ascii) : string := acc ++ String a EmptyString.

(** Splits a body at [{{] and [}}]. *)
Fixpoint scan (st : scan_state) (acc : string) (s : string) : list piece :=
  match s with
  | EmptyString =>
      match st with
      | InText => [Lit acc]
      | Open1 => [Lit (snoc acc "{")]
      | InName => [Lit ("{{" ++ acc)]
      | Close1 => [Lit ("{{" ++ snoc acc "}")]
      end
  | String a s' =>
      match st with
      | InText =>
          if Ascii.eqb a "{" then scan Open1 acc s' else scan InText (snoc acc a) s'
      | Open1 =>
          if Ascii.eqb a "{" then Lit acc :: scan InName "" s'
          else scan InText (snoc (snoc acc "{") a) s'
      | InName =>
          if Ascii.eqb a "}" then scan Close1 acc s' else scan InName (snoc acc a) s'
      | Close1 =>
          if Ascii.eqb a "}" then Var acc :: scan InText "" s'
          else scan InName (snoc (snoc acc "}") a) s'
      end
  end.

(** The body of a template file.  A file can be read as a template when
    it is a package: here, bytes that start with the zip signature. *)
Definition template_pieces (c : content) : list piece + string :=
  match c with
  | Bytes (String "P" (String "K" body_)) => inl (scan InText "" body_)
  | _ => inr "File is not a zip file"
  end.

(** The text a value is rendered as; values the small engine does not
    print are refused. *)
Definition value_text (v : pyval) : string + string :=
  match v with
  | PStr s => inl s
  | PInt z => inl (DecimalString.NilZero.string_of_int (Z.to_int z))
  | PBool true => inl "True"
  | PBool false => inl "False"
  | PNone => inl "None"
  | _ => inr ("cannot render a value of type " ++ type_name v)
  end.

Fixpoint render_pieces (ps : list piece) (context : gmap string pyval)
         (env : Environment) : list piece + string :=
  match ps with
  | [] => inl []
  | Lit t :: rest =>
      match render_pieces rest context env with
      | inl out => inl (Lit t :: out)
      | inr e => inr e
      end
  | Var n :: rest =>
      match context !! n with
      | Some v =>
          match value_text v with
          | inl t =>
              match render_pieces rest context env with
              | inl out => inl (Lit t :: out)
              | inr e => inr e
              end
          | inr e => inr e
          end
      | None =>
          match undefined env with
          | StrictUndefined => inr ("'" ++ n ++ "' is undefined")
          | Undefined =>
              match render_pieces rest context env with
              | inl out => inl (Lit "" :: out)
              | inr e => inr e
              end
          end
      end
  end.

Fixpoint pieces_text (ps : list piece) : string :=
  match ps with
  | [] => ""
  | Lit t :: rest => t ++ pieces_text rest
  | Var n :: rest => "{{" ++ n ++ "}}" ++ pieces_text rest
  end.

Definition save_pieces (ps : list piece) : string := "PK" ++ pieces_text ps.

(** The names of the placeholders of a template body. *)
Fixpoint placeholders (ps : list piece) : list string :=
  match ps with
  | [] => []
  | Lit _ :: rest => placeholders rest
  | Var n :: rest => n :: placeholders rest
  end.

(** A template object, as docxtpl keeps it: the file it was built on
    and, once [render] has run, the rendered body. *)
Inductive doc :=
| Template (file_ : content)
| Rendered (file_ : content) (body_ : list piece).

Definition doc_file (d : doc) : content :=
  match d with
  | Template c => c
  | Rendered c _ => c
  end.

(** [DocxTemplate(path)] records the file and reads nothing: it never
    raises. *)
Definition open_template (c : content) : doc + string := inl (Template c).

(** [document.render(context, jinja_env)] reads the file, so a file that
    is not a package is refused here, and then fills the placeholders. *)
Definition render (d : doc) (context : gmap string pyval) (env : Environment)
  : doc + string :=
  match template_pieces (doc_file d) with
  | inr e => inr e
  | inl ps =>
      match render_pieces ps context env with
      | inl out => inl (Rendered (doc_file d) out)
      | inr e => inr e
      end
  end.

(** [document.save(path)]: the bytes of the rendered body; a template
    that was not rendered is saved as it is. *)
Definition save (d : doc) : string :=
  match d with
  | Rendered _ out => save_pieces out
  | Template (Bytes data) => data
  | Template (ZipArchive _) => ""
  end.

(** The names of the placeholders of a template object; a file that is
    not a package has none. *)
Definition doc_placeholders (d : doc) : list string :=
  match template_pieces (doc_file d) with
  | inl ps => placeholders ps
  | inr _ => []
  end.

(** The texts the examples submit. *)
Definition text_two_fields : string :=
  "{" ++ quoted "dept_name" ++ ": " ++ quoted "X" ++ ", "
      ++ quoted "requester" ++ ": " ++ quoted "Y" ++ "}".
Definition text_one_field : string :=
  "{" ++ quoted "dept_name" ++ ": " ++ quoted "Z" ++ "}".
Definition text_other : string :=
  "{" ++ quoted "dept_name" ++ ": " ++ quoted "A" ++ ", "
      ++ quoted "requester" ++ ": " ++ quoted "B" ++ "}".
Definition text_list : string := "[1, 2]".
Definition text_open_brace : string := "{".
Definition text_json_body : string :=
  "{" ++ quoted "data" ++ ": " ++ text_two_fields ++ ", "
      ++ quoted "generate_pdf" ++ ": " ++ quoted "false" ++ "}".

Definition ctx_two_fields : gmap string pyval :=
  <["dept_name" := PStr "X"]> (<["requester" := PStr "Y"]> ∅).
Definition ctx_one_field : gmap string pyval :=
  <["dept_name" := PStr "Z"]> ∅.
Definition ctx_other : gmap string pyval :=
  <["dept_name" := PStr "A"]> (<["requester" := PStr "B"]> ∅).

(** [json.loads] on the texts above; any other text is reported as not
    parsed. *)
Definition loads (s : string) : pyval + string :=
  if String.eqb s text_two_fields then inl (PDict ctx_two_fields)
  else if String.eqb s text_one_field then inl (PDict ctx_one_field)
  else if String.eqb s text_other then inl (PDict ctx_other)
  else if String.eqb s text_list then inl (PList [PInt 1; PInt 2])
  else if String.eqb s text_json_body then
    inl (PDict (<["data" := PDict ctx_two_fields]> (<["generate_pdf" := PStr "false"]> ∅)))
  else if String.eqb s text_open_brace then
    inr "Expecting property name enclosed in double quotes: line 1 column 2 (char 1)"
  else inr "Expecting value: line 1 column 1 (char 0)".

(** Converters with a fixed outcome. *)
Definition converter := list string -> FS -> option (CompletedProcess * option string).

Definition soffice_ok : converter :=
  fun _ _ => Some ({| returncode := 0; stdout := "convert -> pdf"; stderr := "" |},
                   Some "%PDF-1.7").
Definition soffice_exit1 : converter :=
  fun _ _ => Some ({| returncode := 1; stdout := "";
                      stderr := "Error: source file could not be loaded" |}, None).
Definition soffice_no_output : converter :=
  fun _ _ => Some ({| returncode := 0; stdout := "";
                      stderr := "warning: failed to launch javaldx" |}, None).
Definition soffice_exit1_stdout : converter :=
  fun _ _ => Some ({| returncode := 1; stdout := "Error: no export filter for pdf";
                      stderr := "" |}, None).

(** [s.split(c)], with [acc] the piece being read. *)
Fixpoint split_all (c : ascii) (acc : string) (s : string) : list string :=
  match s with
  | EmptyString => [acc]
  | String a s' =>
      if Ascii.eqb a c then acc :: split_all c EmptyString s'
      else split_all c (snoc acc a) s'
  end.

(** The media type of the content types of the examples, which are in
    lower case and have no white space around the media type: the text
    before the first semicolon. *)
Definition media_type (value : option string) : string :=
  match value with
  | None => ""
  | Some v =>
      match Str.split_once ";" v with
      | Some (l, _) => l
      | None => v
      end
  end.

(** Percent-encoding as [urllib.parse.quote_plus] does it, and its
    inverse [unquote_plus], on bytes. *)
Definition hex_digit (n : N) : ascii :=
  if (n <? 10)%N then ascii_of_N (48 + n) else ascii_of_N (55 + n).

Definition hex_value (a : ascii) : option N :=
  let n := N_of_ascii a in
  if ((48 <=? n) && (n <=? 57))%N then Some (n - 48)%N
  else if ((65 <=? n) && (n <=? 70))%N then Some (n - 55)%N
  else if ((97 <=? n) && (n <=? 102))%N then Some (n - 87)%N
  else None.

Definition unreserved (a : ascii) : bool :=
  let n := N_of_ascii a in
  (((48 <=? n) && (n <=? 57)) || ((65 <=? n) && (n <=? 90)) || ((97 <=? n) && (n <=? 122))
   || (n =? 45) || (n =? 46) || (n =? 95) || (n =? 126))%N.

Fixpoint quote_plus (s : string) : string :=
  match s with
  | EmptyString => EmptyString
  | String a s' =>
      if unreserved a then String a (quote_plus s')
      else if Ascii.eqb a " " then String "+" (quote_plus s')
      else
        let n := N_of_ascii a in
        String "%" (String (hex_digit (n / 16)) (String (hex_digit (n mod 16))
                                                   (quote_plus s')))
  end.

Fixpoint unquote_plus (s : string) : string :=
  match s with
  | EmptyString => EmptyString
  | String a s' =>
      if Ascii.eqb a "+" then String " " (unquote_plus s')
      else if Ascii.eqb a "%" then
        match s' with
        | String h (String l s'') =>
            match hex_value h, hex_value l with
            | Some x, Some y => String (ascii_of_N (16 * x + y)) (unquote_plus s'')
            | _, _ => String a (unquote_plus s')
            end
        | _ => String a (unquote_plus s')
        end
      else String a (unquote_plus s')
  end.

(** A urlencoded body, as a client writes it from the fields of a
    form. *)
Fixpoint urlencode (fields : list (string * string)) : string :=
  match fields with
  | [] => EmptyString
  | (k, v) :: rest =>
      quote_plus k ++ "=" ++ quote_plus v ++
      match rest with
      | [] => EmptyString
      | _ => "&" ++ urlencode rest
      end
  end.

(** The parser of urlencoded bodies: fields are separated by [&], a name
    ends at the first [=], and names and values are percent-decoded. *)
Definition form_field (piece : string) : option (string * string) :=
  if String.eqb piece "" then None
  else
    match Str.split_once "=" piece with
    | Some (k, v) => Some (unquote_plus k, unquote_plus v)
    | None => Some (unquote_plus piece, EmptyString)
    end.

Definition form_parser (headers_ : gmap string string) (body_ : string)
  : list (string * string) :=
  omap form_field (split_all "&" EmptyString body_).

(** A multipart body with the boundary [x] and one part: the file
    [data.json], sent under the field name [json_data]. *)
Definition CRLF : string := String (ascii_of_nat 13) (String (ascii_of_nat 10) EmptyString).

Definition multipart_file_body : string :=
  "--x" ++ CRLF
  ++ "Content-Disposition: form-data; name=" ++ quoted "json_data"
  ++ "; filename=" ++ quoted "data.json" ++ CRLF
  ++ "Content-Type: application/json" ++ CRLF
  ++ CRLF
  ++ text_two_fields ++ CRLF
  ++ "--x--" ++ CRLF.

(** The multipart parser on the bodies of the examples: a content type
    without a boundary is refused, the body above holds its one file,
    and an empty body holds no field.  No other body is sent; the sample
    reads none of them and reports a parse failure. *)
Definition multipart_parser (headers_ : gmap string string) (body_ : string)
  : list (string * form_value) + multipart_failure :=
  match headers_ !! "content-type" with
  | Some ct =>
      if negb (Str.contains "boundary=" ct)
      then inr (MultiPartException "Missing boundary in multipart.")
      else if String.eqb body_ multipart_file_body
      then inl [("json_data", FormFile {| filename := "data.json"; file := text_two_fields |})]
      else if String.eqb body_ ""
      then inl []
      else inr (ParseFailure "Did not find boundary character")
  | None => inr (MultiPartException "Missing boundary in multipart.")
  end.

(** The examples send no [If-Range] header and ask for no byte range:
    the sample takes no [If-Range] value for the validator of a file, and
    reads no range part. *)
Definition no_validator (http_if_range : string) (file_ : content) : bool := false.

Definition no_ranges (units range_ : string) (file_ : content) : range_decision :=
  MalformedRangeHeader.

Definition collaborators_with (parse : string -> pyval + string) (conv : converter)
  : Collaborators :=
  {| BASE_DIR := "/srv/app";
     json_loads := parse;
     document := doc;
     DocxTemplate := open_template;
     docx_render := render;
     docx_save := save;
     soffice := conv;
     parse_options_header := media_type;
     MultiPartParser := multipart_parser;
     FormParser := form_parser;
     should_use_range := no_validator;
     byte_ranges := no_ranges |}.

Definition collaborators (conv : converter) : Collaborators :=
  collaborators_with loads conv.

(** A template with the two placeholders of the home page example. *)
Definition template_bytes : string := "PK{{dept_name}} / {{requester}}".

Definition fs_empty : FS := ∅.
Definition fs_template : FS := <[UPLOAD_DIR // TEMPLATE_NAME := Bytes template_bytes]> ∅.

Definition t0 : datetime :=
  {| year := 2026; month := 11; day := 3; hour := 9; minute := 5; second := 7;
     microsecond := 120000 |}.
Definition t0_later : datetime :=
  {| year := 2026; month := 11; day := 3; hour := 9; minute := 5; second := 7;
     microsecond := 870000 |}.
Definition t1 : datetime :=
  {| year := 2026; month := 11; day := 3; hour := 9; minute := 5; second := 8;
     microsecond := 0 |}.

(** The requests of the examples: a form posted as a urlencoded body, a
    JSON body, and a multipart body with the boundary [x]. *)
Definition form_request (fields : list (string * string)) : Request :=
  {| headers := <["content-type" := "application/x-www-form-urlencoded"]> ∅;
     body := urlencode fields |}.

Definition json_request (text : string) : Request :=
  {| headers := <["content-type" := "application/json"]> ∅;
     body := text |}.

Definition multipart_request (body_ : string) : Request :=
  {| headers := <["content-type" := "multipart/form-data; boundary=x"]> ∅;
     body := body_ |}.

End Sample.

(* ===================================================================== *)
(** ** The home page *)
(* ===================================================================== *)

(** The double quote and the line feed. *)
Definition DQ : string := String (ascii_of_nat 34) EmptyString.
Definition NL : string := String (ascii_of_nat 10) EmptyString.

(** The lines of the page of [render_homepage] up to the template status. *)
Definition HOMEPAGE_HEAD : list string :=
  [ "";
    "    <html>";
    "        <head>";
    "            <title>Fixed Layout Word Generator</title>";
    "            <style>";
    "                body { font-family: Arial, sans-serif; max-width: 960px; margin: 40px auto; }";
    "                form { margin-bottom: 30px; padding: 20px; border: 1px solid #ddd; border-radius: 8px; }";
    "                label { display: block; margin-top: 10px; }";
    "                textarea { width: 100%; height: 220px; font-family: monospace; }";
    "                .status { padding: 10px; background: #f3f3f3; border-radius: 6px; margin-bottom: 16px; }";
    "                .note { color: #666; font-size: 14px; }";
    "            </style>";
    "        </head>";
    "        <body>";
    "            <h1>固定版型 Word 文件產生器</h1>";
    "            <div class=" ++ DQ ++ "status" ++ DQ ++ ">目前母版狀態：" ].

(** The lines of the page after the template status. *)
Definition HOMEPAGE_TAIL : list string :=
  [ "</div>";
    "";
    "            <h2>上傳母版 template.docx</h2>";
    "            <form action=" ++ DQ ++ "/upload-template" ++ DQ ++ " method=" ++ DQ ++ "post" ++ DQ ++ " enctype=" ++ DQ ++ "multipart/form-data" ++ DQ ++ ">";
    "                <label>選擇 template.docx：</label>";
    "                <input type=" ++ DQ ++ "file" ++ DQ ++ " name=" ++ DQ ++ "file" ++ DQ ++ " accept=" ++ DQ ++ "application/vnd.openxmlformats-officedocument.wordprocessingml.document" ++ DQ ++ " required />";
    "                <button type=" ++ DQ ++ "submit" ++ DQ ++ ">上傳並覆蓋</button>";
    "            </form>";
    "";
    "            <h2>產生文件</h2>";
    "            <form action=" ++ DQ ++ "/generate" ++ DQ ++ " method=" ++ DQ ++ "post" ++ DQ ++ ">";
    "                <label>JSON 內容（key 對應 {key}）：</label>";
    "                <textarea name=" ++ DQ ++ "json_data" ++ DQ ++ " required>{{";
    "    " ++ DQ ++ "dept_name" ++ DQ ++ ": " ++ DQ ++ "研發部" ++ DQ ++ ",";
    "    " ++ DQ ++ "requester" ++ DQ ++ ": " ++ DQ ++ "王小明" ++ DQ;
    "}}</textarea>";
    "                <label><input type=" ++ DQ ++ "checkbox" ++ DQ ++ " name=" ++ DQ ++ "generate_pdf" ++ DQ ++ " /> 同時輸出 PDF</label>";
    "                <button type=" ++ DQ ++ "submit" ++ DQ ++ ">產生並下載</button>";
    "                <p class=" ++ DQ ++ "note" ++ DQ ++ ">若 JSON 缺少母版中的占位符會回報錯誤。</p>";
    "            </form>";
    "        </body>";
    "    </html>";
    "    " ].

(** [render_homepage]: the f-string with its doubled braces read as
    single ones, and the status chosen by whether the template is
    stored. *)
Definition render_homepage : M string :=
  let* template_uploaded := exists_ (UPLOAD_DIR // TEMPLATE_NAME) in
  ret (String.concat NL HOMEPAGE_HEAD
       ++ (if template_uploaded : bool then "已上傳" else "尚未上傳")
       ++ String.concat NL HOMEPAGE_TAIL).

(** [home] *)
Definition home : M string := render_homepage.

(* ===================================================================== *)
(** ** Vocabulary of the statements *)
(* ===================================================================== *)

(** The one template path of the service. *)
Definition template_path : Path := UPLOAD_DIR // TEMPLATE_NAME.

(** The artifact names derived from a clock reading. *)
Definition docx_name (now : datetime) : string := "output_" ++ strftime_YmdHMS now ++ ".docx".
Definition pdf_name (now : datetime) : string := "output_" ++ strftime_YmdHMS now ++ ".pdf".
Definition zip_name (now : datetime) : string := "output_" ++ strftime_YmdHMS now ++ ".zip".

(** Two clock readings that agree down to the second. *)
Definition same_second (a b : datetime) : Prop :=
  year a = year b /\ month a = month b /\ day a = day b /\
  hour a = hour b /\ minute a = minute b /\ second a = second b.

Definition is_digit (a : ascii) : bool :=
  let n := N_of_ascii a in ((48 <=? n) && (n <=? 57))%N.

Fixpoint digits_only (s : string) : bool :=
  match s with
  | EmptyString => true
  | String a s' => is_digit a && digits_only s'
  end.

(** A file name with the document extension: it ends in [.docx], in any
    mix of upper and lower case. *)
Definition has_docx_extension (n : string) : Prop :=
  exists front ext, n = front ++ ext /\ Str.lower ext = ".docx".

Definition MSG_FORM_ROOT : string := "JSON 根層級必須是物件".
Definition MSG_PARSE (exc : string) : string := "JSON 解析錯誤: " ++ exc.

(** The values Python counts as false: [None], [False], a zero, the
    empty text and the empty containers. *)
Definition falsy (v : pyval) : Prop :=
  v = PNone \/ v = PBool false \/ v = PInt 0 \/
  (exists negative, v = PFloat (S754_zero negative)) \/
  v = PStr "" \/ v = PList [] \/ v = PDict ∅ \/ v = PFormData [].

(** The values that are equal to one of [on], [True] and [true]: the two
    texts, [True], and the numbers that compare equal to it, the integer
    1 and the float 1.0. *)
Definition on_True_or_true (v : pyval) : Prop :=
  v = PStr "on" \/ v = PStr "true" \/ v = PBool true \/ v = PInt 1 \/
  v = PFloat (S754_finite false 4503599627370496 (-52)).

(** The values that have a hash: all but lists, dicts and forms. *)
Definition hashable (v : pyval) : Prop :=
  (forall l, v <> PList l) /\ (forall d, v <> PDict d) /\ (forall items, v <> PFormData items).

Definition MSG_NO_TEMPLATE : string := "尚未上傳母版 template.docx".
Definition MSG_RENDER (exc : string) : string := "產生內容失敗: " ++ exc.
Definition MSG_CONVERT (diagnostic : string) : string := "PDF 轉換失敗: " ++ diagnostic.
Definition MSG_NO_PDF : string := "PDF 檔案未生成".

Section Vocabulary.
Context `{Collaborators}.

(** The fields [request.form()] returns for a request; none when it
    raises. *)
Definition form (request : Request) : list (string * pyval) :=
  match _get_form request with
  | Ok items => items
  | Raise _ => []
  end.

(** The first step of [generate]: the content type, then the body or the
    form handed to [_load_context_from_request]. *)
Definition request_context (request : Request) : result (gmap string pyval * bool) :=
  let content_type :=
    match headers request !! "content-type" with Some v => v | None => "" end in
  if Str.contains "application/json" content_type then
    match json_loads_obj (PStr (body request)) with
    | Ok payload => _load_context_from_request content_type payload
    | Raise e => Raise e
    end
  else
    match _get_form request with
    | Ok items => _load_context_from_request content_type (PFormData items)
    | Raise e => Raise e
    end.

(** The Jinja environment [_render_docx] builds. *)
Definition jinja_env : Environment :=
  {| autoescape := false; undefined := StrictUndefined |}.

(** The command line [_convert_to_pdf] runs on an artifact. *)
Definition soffice_command (docx_path : Path) : list string :=
  [ "soffice"; "--headless"; "--convert-to"; "pdf";
    path_str BASE_DIR docx_path; "--outdir"; dir_str BASE_DIR OUTPUT_DIR ].

(** The contract of strict-undefined rendering, for an engine whose
    templates have the placeholder names [placeholders]: under
    [StrictUndefined], rendering a template that has a placeholder the
    context does not define raises. *)
Definition honours_strict_undefined (placeholders : document -> list string) : Prop :=
  forall (d : document) (context : gmap string pyval) (env : Environment) (n : string),
    undefined env = StrictUndefined ->
    n ∈ placeholders d ->
    context !! n = None ->
    exists msg, docx_render d context env = inr msg.


End Vocabulary.

(* ===================================================================== *)
(** ** Vocabulary of the further statements *)
(* ===================================================================== *)



(** The text the home page puts in its [json_data] box. *)
Definition HOMEPAGE_JSON : string :=
  String.concat NL
    [ "{{";
      "    " ++ DQ ++ "dept_name" ++ DQ ++ ": " ++ DQ ++ "研發部" ++ DQ ++ ",";
      "    " ++ DQ ++ "requester" ++ DQ ++ ": " ++ DQ ++ "王小明" ++ DQ;
      "}}" ].

(** Clock readings compared field by field, from the year down to the
    second. *)
Definition chronological (a b : datetime) : comparison :=
  match year a ?= year b with
  | Eq =>
      match month a ?= month b with
      | Eq =>
          match day a ?= day b with
          | Eq =>
              match hour a ?= hour b with
              | Eq =>
                  match minute a ?= minute b with
                  | Eq => second a ?= second b
                  | c => c
                  end
              | c => c
              end
          | c => c
          end
      | c => c
      end
  | c => c
  end.

(** The small collaborators with a parser that also knows the text of
    the home page. *)
Module SamplePage.

Definition loads (s : string) : pyval + string :=
  if String.eqb s HOMEPAGE_JSON
  then inr "Expecting property name enclosed in double quotes: line 1 column 2 (char 1)"
  else Sample.loads s.

Definition collaborators : Collaborators :=
  Sample.collaborators_with loads Sample.soffice_ok.

End SamplePage.

(* ===================================================================== *)
(** ** Facts about strings *)
(* ===================================================================== *)

Lemma app_cons (a : ascii) (s t : string) : String a s ++ t = String a (s ++ t).
Proof. reflexivity. Qed.

Lemma app_nil_l (t : string) : "" ++ t = t.
Proof. reflexivity. Qed.

(** Pushes concatenations inwards, then simplifies. *)
Ltac str_norm := rewrite ?app_cons, ?app_nil_l; simpl; rewrite ?app_cons, ?app_nil_l.

Section StringFacts.
Implicit Types (s t : string) (a c : ascii).

Lemma length_append s t :
  String.length (s ++ t) = (String.length s + String.length t)%nat.
Proof. induction s as [|a s IH]; str_norm; [done | by rewrite IH]. Qed.

Lemma append_nil_r s : s ++ "" = s.
Proof. induction s as [|a s IH]; str_norm; [done | by rewrite IH]. Qed.

Lemma append_assoc s t u : (s ++ t) ++ u = s ++ (t ++ u).
Proof. induction s as [|a s IH]; str_norm; [done | by rewrite IH]. Qed.

Lemma append_inv_head s t u : s ++ t = s ++ u -> t = u.
Proof. induction s as [|a s IH]; str_norm; [done |]. intros [= E]. auto. Qed.

Lemma substring_all s : substring 0 (String.length s) s = s.
Proof. induction s as [|a s IH]; simpl; [done | by rewrite IH]. Qed.

Lemma substring_append_front s t : substring 0 (String.length s) (s ++ t) = s.
Proof.
  induction s as [|a s IH]; str_norm.
  - by destruct t.
  - by rewrite IH.
Qed.

Lemma substring_append_back s t :
  substring (String.length s) (String.length t) (s ++ t) = t.
Proof. induction s as [|a s IH]; str_norm; [apply substring_all | done]. Qed.

Lemma prefix_append s t : String.prefix s (s ++ t) = true.
Proof.
  induction s as [|a s IH]; str_norm; [by destruct t |].
  destruct (ascii_dec a a); [done | congruence].
Qed.

Lemma prefix_head_ne a c s t :
  a <> c -> String.prefix (String c s) (String a t) = false.
Proof. intros Hne. simpl. destruct (ascii_dec c a); [congruence | done]. Qed.

(** The last occurrence in a concatenation is the last occurrence in the
    right part, or else in the left part. *)
Lemma rfind_append c s t :
  Str.rfind c (s ++ t) =
  match Str.rfind c t with
  | Some i => Some (String.length s + i)%nat
  | None => Str.rfind c s
  end.
Proof.
  induction s as [|a s IH]; str_norm.
  - by destruct (Str.rfind c t).
  - rewrite IH. by destruct (Str.rfind c t).
Qed.

Lemma digits_only_append s t :
  digits_only (s ++ t) = digits_only s && digits_only t.
Proof.
  induction s as [|a s IH]; str_norm; [done |].
  by rewrite IH, andb_assoc.
Qed.

Lemma digits_only_rfind c s :
  is_digit c = false -> digits_only s = true -> Str.rfind c s = None.
Proof.
  intros Hc. induction s as [|a s IH]; simpl; [done |].
  intros [Ha Hs]%andb_prop. rewrite (IH Hs).
  destruct (Ascii.eqb_spec a c) as [->|]; [congruence | done].
Qed.

(** Replacing a word that starts with a non-digit leaves digits alone. *)
Lemma replace_from_digits c old new s :
  is_digit c = false -> digits_only s = true ->
  Str.replace_from (String c old) new 0 s = s.
Proof.
  intros Hc. induction s as [|a s IH]; [done |].
  intros [Ha Hs]%andb_prop.
  cbn [Str.replace_from].
  rewrite prefix_head_ne by congruence.
  by rewrite (IH Hs).
Qed.

Lemma replace_from_skip old new k u s :
  String.length u = k ->
  Str.replace_from old new k (u ++ s) = Str.replace_from old new 0 s.
Proof.
  revert k. induction u as [|a u IH]; intros k <-; str_norm; [done |].
  by apply IH.
Qed.

Lemma digit_is_digit d : is_digit (digit d) = true.
Proof.
  unfold digit.
  assert (Hr : 0 <= d mod 10 < 10) by (apply Z.mod_pos_bound; lia).
  assert (Hc : d mod 10 = 0 \/ d mod 10 = 1 \/ d mod 10 = 2 \/ d mod 10 = 3 \/
               d mod 10 = 4 \/ d mod 10 = 5 \/ d mod 10 = 6 \/ d mod 10 = 7 \/
               d mod 10 = 8 \/ d mod 10 = 9) by lia.
  destruct Hc as [-> | [-> | [-> | [-> | [-> | [-> | [-> | [-> | [-> | ->]]]]]]]]];
    reflexivity.
Qed.

Lemma pad2_digits n : digits_only (pad2 n) = true.
Proof. unfold pad2. simpl. by rewrite !digit_is_digit. Qed.

Lemma pad4_digits n : digits_only (pad4 n) = true.
Proof. unfold pad4. simpl. by rewrite !digit_is_digit. Qed.

Lemma strftime_digits now : digits_only (strftime_YmdHMS now) = true.
Proof.
  unfold strftime_YmdHMS.
  by rewrite !digits_only_append, pad4_digits, !pad2_digits.
Qed.

Lemma strftime_length now : String.length (strftime_YmdHMS now) = 14%nat.
Proof. reflexivity. Qed.

End StringFacts.

(* ===================================================================== *)
(** ** Facts about artifact names *)
(* ===================================================================== *)

Section NameFacts.
Implicit Types (s t : string) (now : datetime).

(** A name made of a dot-free, non-empty front and [.docx]. *)
Lemma suffix_index_docx s :
  Str.rfind "." s = None -> s <> "" ->
  suffix_index (s ++ ".docx") = Some (String.length s).
Proof.
  intros Hdot Hne. unfold suffix_index.
  rewrite rfind_append. change (Str.rfind "." ".docx") with (Some 0%nat).
  cbv beta iota. rewrite Nat.add_0_r, length_append.
  change (String.length ".docx") with 5%nat.
  assert (0 < String.length s)%nat by (destruct s; [done | simpl; lia]).
  destruct (Nat.ltb_spec 0 (String.length s)); [|lia].
  destruct (Nat.ltb_spec (String.length s) (String.length s + 5 - 1)); [done | lia].
Qed.

Lemma rfind_dot_output ts :
  digits_only ts = true -> Str.rfind "." ("output_" ++ ts) = None.
Proof.
  intros Hd. rewrite rfind_append.
  by rewrite (digits_only_rfind "." ts).
Qed.

Lemma docx_name_split now :
  docx_name now = ("output_" ++ strftime_YmdHMS now) ++ ".docx".
Proof. unfold docx_name. by rewrite append_assoc. Qed.

Lemma suffix_index_docx_name now :
  suffix_index (docx_name now) = Some (String.length ("output_" ++ strftime_YmdHMS now)).
Proof.
  rewrite docx_name_split. apply suffix_index_docx.
  - apply rfind_dot_output, strftime_digits.
  - done.
Qed.

(** [stem] of an artifact path is the name without [.docx]. *)
Lemma stem_docx d now :
  stem (d // docx_name now) = "output_" ++ strftime_YmdHMS now.
Proof.
  unfold stem. cbn [name]. rewrite suffix_index_docx_name.
  rewrite docx_name_split. apply substring_append_front.
Qed.

(** [with_suffix(".pdf")] of an artifact path is its PDF sibling. *)
Lemma with_suffix_docx d now :
  with_suffix (d // docx_name now) ".pdf" = Ok (d // pdf_name now).
Proof.
  unfold with_suffix. cbn [name parent].
  rewrite suffix_index_docx_name.
  rewrite docx_name_split, substring_append_front.
  unfold pdf_name. by rewrite append_assoc.
Qed.

(** The timestamp [generate] recovers from the artifact path is the one
    [_render_docx] put there. *)
Lemma replace_output_stem d now :
  Str.replace "output_" "" (stem (d // docx_name now)) = strftime_YmdHMS now.
Proof.
  rewrite stem_docx. unfold Str.replace.
  change ("output_" ++ strftime_YmdHMS now)
    with (String "o" ("utput_" ++ strftime_YmdHMS now)).
  cbn [Str.replace_from].
  change (String "o" ("utput_" ++ strftime_YmdHMS now))
    with ("output_" ++ strftime_YmdHMS now).
  rewrite prefix_append. rewrite app_nil_l.
  change (String.length "output_" - 1)%nat with (String.length "utput_").
  rewrite replace_from_skip by done.
  apply (replace_from_digits "o" "utput_"); [done | apply strftime_digits].
Qed.

Lemma docx_pdf_names_differ now now' : docx_name now <> pdf_name now'.
Proof.
  unfold docx_name, pdf_name. intros E%append_inv_head.
  assert (Hl : forall t, String.length t = 14%nat -> forall u,
             String.length u = 14%nat -> t ++ ".docx" = u ++ ".pdf" -> False).
  { intros t Ht u Hu Heq.
    assert (String.length (t ++ ".docx") = String.length (u ++ ".pdf")) by by rewrite Heq.
    rewrite !length_append, Ht, Hu in *. discriminate. }
  by apply (Hl _ (strftime_length now) _ (strftime_length now')).
Qed.

Lemma digit_inj x y : digit x = digit y -> x mod 10 = y mod 10.
Proof.
  unfold digit. intros E.
  assert (Hx : 0 <= x mod 10 < 10) by (apply Z.mod_pos_bound; lia).
  assert (Hy : 0 <= y mod 10 < 10) by (apply Z.mod_pos_bound; lia).
  apply (f_equal N_of_ascii) in E.
  rewrite !N_ascii_embedding in E by lia.
  lia.
Qed.

Lemma pad2_inj a b : 0 <= a < 100 -> 0 <= b < 100 -> pad2 a = pad2 b -> a = b.
Proof.
  intros Ha Hb. unfold pad2. intros [= E1 E0].
  apply digit_inj in E1, E0. Z.div_mod_to_equations. lia.
Qed.

Lemma pad4_inj a b : 0 <= a < 10000 -> 0 <= b < 10000 -> pad4 a = pad4 b -> a = b.
Proof.
  intros Ha Hb. unfold pad4. intros [= E3 E2 E1 E0].
  apply digit_inj in E3, E2, E1, E0. Z.div_mod_to_equations. lia.
Qed.

(** Splitting an equation between concatenations with fronts of one
    length. *)
Lemma append_inj_length s s' t t' :
  String.length s = String.length s' -> s ++ t = s' ++ t' -> s = s' /\ t = t'.
Proof.
  revert s'. induction s as [|a s IH]; intros [|a' s']; str_norm; try done.
  intros [= Hl] [= -> E]. destruct (IH _ Hl E) as [-> ->]. done.
Qed.

(** The formatted timestamp determines the reading down to the second,
    and nothing more. *)
Lemma strftime_eq_iff a b :
  datetime_ok a -> datetime_ok b ->
  strftime_YmdHMS a = strftime_YmdHMS b <-> same_second a b.
Proof.
  intros (Hy & Hm & Hd & Hh & Hmi & Hs & _) (Hy' & Hm' & Hd' & Hh' & Hmi' & Hs' & _).
  unfold strftime_YmdHMS, same_second. split.
  - intros E.
    apply append_inj_length in E as [E1 E]; [|done].
    apply append_inj_length in E as [E2 E]; [|done].
    apply append_inj_length in E as [E3 E]; [|done].
    apply append_inj_length in E as [E4 E]; [|done].
    apply append_inj_length in E as [E5 E6]; [|done].
    apply pad4_inj in E1; [|lia..].
    apply pad2_inj in E2; [|lia..].
    apply pad2_inj in E3; [|lia..].
    apply pad2_inj in E4; [|lia..].
    apply pad2_inj in E5; [|lia..].
    apply pad2_inj in E6; [|lia..].
    done.
  - intros (-> & -> & -> & -> & -> & ->). done.
Qed.

Lemma docx_name_eq_iff a b :
  datetime_ok a -> datetime_ok b ->
  docx_name a = docx_name b <-> same_second a b.
Proof.
  intros Ha Hb. rewrite <- (strftime_eq_iff a b Ha Hb). unfold docx_name. split.
  - intros E%append_inv_head.
    apply append_inj_length in E as [E _]; done.
  - by intros ->.
Qed.

End NameFacts.

(* ===================================================================== *)
(** ** Template upload *)
(* ===================================================================== *)

(** Unfolds the monad operations of a handler run. *)
Ltac run_monad :=
  unfold bind, ret, raise, lift, write, read, exists_, unlink_missing_ok.

(** A run is the pair of its result and of the store it leaves. *)
Lemma run_result {A} (run : result A * FS) (r : result A) :
  run.1 = r -> run = (r, run.2).
Proof. intros <-. by destruct run. Qed.

(** Evaluates the result of a run on concrete data, leaving the store it
    ends in as it is. *)
Ltac run_concrete := apply run_result; vm_compute; reflexivity.

Section UploadFacts.
Implicit Types (s t : string).

Lemma lower_append s t : Str.lower (s ++ t) = Str.lower s ++ Str.lower t.
Proof. induction s as [|a s IH]; str_norm; [done | by rewrite IH]. Qed.

Lemma lower_length s : String.length (Str.lower s) = String.length s.
Proof. induction s as [|a s IH]; simpl; [done | by rewrite IH]. Qed.

Lemma lower_substring s : forall i k,
  Str.lower (substring i k s) = substring i k (Str.lower s).
Proof.
  induction s as [|a s IH]; intros [|i] [|k]; simpl; try done.
  by rewrite IH.
Qed.

Lemma substring_split s : forall i, (i <= String.length s)%nat ->
  s = substring 0 i s ++ substring i (String.length s - i) s.
Proof.
  induction s as [|a s IH]; intros [|i] Hi; simpl in *.
  - done.
  - lia.
  - rewrite app_nil_l. by rewrite substring_all.
  - rewrite app_cons. f_equal. apply IH. lia.
Qed.

(** [endswith] holds exactly of the strings that are some front followed
    by the suffix. *)
Lemma endswith_iff s suf :
  Str.endswith s suf = true <-> exists front, s = front ++ suf.
Proof.
  unfold Str.endswith. split.
  - intros [Hk He]%andb_prop. apply Nat.leb_le in Hk. apply String.eqb_eq in He.
    exists (substring 0 (String.length s - String.length suf) s).
    rewrite (substring_split s (String.length s - String.length suf)) at 1 by lia.
    f_equal.
    replace (String.length s - (String.length s - String.length suf))%nat
      with (String.length suf) by lia.
    exact He.
  - intros [front ->]. rewrite length_append.
    apply andb_true_intro. split; [apply Nat.leb_le; lia |].
    replace (String.length front + String.length suf - String.length suf)%nat
      with (String.length front) by lia.
    rewrite substring_append_back. apply String.eqb_refl.
Qed.

(** The test of [upload_template] is the extension test. *)
Lemma has_docx_extension_iff s :
  has_docx_extension s <-> Str.endswith (Str.lower s) ".docx" = true.
Proof.
  split.
  - intros (front & ext & -> & He). apply endswith_iff.
    exists (Str.lower front). by rewrite lower_append, He.
  - unfold Str.endswith. rewrite lower_length.
    intros [Hk He]%andb_prop. apply Nat.leb_le in Hk. apply String.eqb_eq in He.
    change (String.length ".docx") with 5%nat in *.
    exists (substring 0 (String.length s - 5) s), (substring (String.length s - 5) 5 s).
    split.
    + rewrite (substring_split s (String.length s - 5)) at 1 by lia.
      f_equal. f_equal. lia.
    + by rewrite lower_substring.
Qed.

End UploadFacts.

(** C4.  An upload whose file name lacks the [.docx] extension is
    rejected with status 400 and leaves every file, the stored template
    included, as it was.  Any other upload replaces the file at the fixed
    template path by the uploaded bytes and answers with a JSON object of
    exactly the fields [message] and [path], where [path] is the text of
    the template path. *)
Theorem upload_template_contract `{Collaborators} (f : UploadFile) (fs : FS) :
  (~ has_docx_extension (filename f) ->
     upload_template f fs = (Raise (HTTPException 400 "僅接受 .docx 母版檔案"), fs)) /\
  (has_docx_extension (filename f) ->
     exists d : gmap string pyval,
       upload_template f fs
         = (Ok (mkJSONResponse d), <[template_path := Bytes (file f)]> fs) /\
       dom d = {[ "message"; "path" ]} /\
       d !! "path" = Some (PStr (path_str BASE_DIR template_path))).
Proof.
  unfold upload_template. split; intros Hext.
  - rewrite has_docx_extension_iff in Hext.
    destruct (Str.endswith (Str.lower (filename f)) ".docx"); [done |]. done.
  - apply has_docx_extension_iff in Hext. rewrite Hext. cbn [negb].
    eexists. split; [reflexivity |]. split.
    + rewrite !dom_insert_L, dom_empty_L. set_solver.
    + rewrite lookup_insert_ne by done. by rewrite lookup_insert_eq.
Qed.

(** A text file is turned away; a Word file with an upper-case extension
    replaces the template. *)
Lemma upload_template_contract_witness :
  let C := Sample.collaborators Sample.soffice_ok in
  let txt := {| filename := "notes.txt"; file := "hello" |} in
  let doc := {| filename := "Report.DOCX"; file := Sample.template_bytes |} in
  (~ has_docx_extension (filename txt) /\
   upload_template txt Sample.fs_template
     = (Raise (HTTPException 400 "僅接受 .docx 母版檔案"), Sample.fs_template)) /\
  (has_docx_extension (filename doc) /\
   exists d : gmap string pyval,
     upload_template doc Sample.fs_empty
       = (Ok (mkJSONResponse d), <[template_path := Bytes (file doc)]> Sample.fs_empty) /\
     dom d = {[ "message"; "path" ]} /\
     d !! "path" = Some (PStr "/srv/app/data/uploads/template.docx")).
Proof.
  intros C txt doc.
  assert (Htxt : ~ has_docx_extension (filename txt)).
  { rewrite has_docx_extension_iff. vm_compute. discriminate. }
  assert (Hdoc : has_docx_extension (filename doc)).
  { rewrite has_docx_extension_iff. vm_compute. reflexivity. }
  split.
  - split; [exact Htxt |].
    exact (proj1 (upload_template_contract txt Sample.fs_template) Htxt).
  - split; [exact Hdoc |].
    exact (proj2 (upload_template_contract doc Sample.fs_empty) Hdoc).
Defined.

(* ===================================================================== *)
(** ** Context loading *)
(* ===================================================================== *)

Section ContextFacts.
Context `{Collaborators}.
Implicit Types (ct s exc : string) (rd v : pyval) (d ctx : gmap string pyval).

Lemma py_bool_str s : py_bool (PStr s) = true <-> s <> "".
Proof.
  simpl. destruct (String.eqb_spec s ""); simpl; split; congruence.
Qed.

Lemma json_loads_obj_str s :
  json_loads_obj (PStr s) =
  match json_loads s with inl v => Ok v | inr exc => Raise (JSONDecodeError exc) end.
Proof. reflexivity. Qed.

(** The form path up to the parse: a [get]-able value with a non-empty
    text under [json_data]. *)
Lemma load_form_parse ct rd s :
  Str.contains "application/json" ct = false ->
  hasattr_get rd = true ->
  py_get rd "json_data" PNone = PStr s ->
  s <> "" ->
  _load_context_from_request ct rd =
  match json_loads s with
  | inr exc => Raise (HTTPException 400 (MSG_PARSE exc))
  | inl context =>
      match in_on_True_true (py_get rd "generate_pdf" PNone) with
      | Raise e => Raise e
      | Ok generate_pdf =>
          match context with
          | PDict context => Ok (context, generate_pdf)
          | _ => Raise (HTTPException 400 MSG_FORM_ROOT)
          end
      end
  end.
Proof.
  intros Hct Hget Htext Hne. unfold _load_context_from_request.
  rewrite Hct, Hget, Htext. cbn [negb].
  rewrite (proj2 (py_bool_str s) Hne). cbn [negb].
  rewrite json_loads_obj_str. by destruct (json_loads s).
Qed.


End ContextFacts.

Section MessageFacts.



End MessageFacts.





(* ===================================================================== *)
(** ** Rendering *)
(* ===================================================================== *)

Section RenderFacts.
Context `{Collaborators}.
Implicit Types (ctx : gmap string pyval) (now : datetime) (fs : FS).

(** [_render_docx] by cases: no template, a template that does not open,
    a rendering that raises, and the saved artifact. *)
Lemma render_docx_run ctx now fs :
  _render_docx ctx now fs =
  match fs !! template_path with
  | None => (Raise (HTTPException 400 MSG_NO_TEMPLATE), fs)
  | Some template =>
      match DocxTemplate template with
      | inr exc => (Raise (HTTPException 500 ("無法載入母版: " ++ exc)), fs)
      | inl d =>
          match docx_render d ctx jinja_env with
          | inr exc => (Raise (HTTPException 400 (MSG_RENDER exc)), fs)
          | inl rendered =>
              (Ok (OUTPUT_DIR // docx_name now),
               <[OUTPUT_DIR // docx_name now := Bytes (docx_save rendered)]> fs)
          end
      end
  end.
Proof.
  unfold _render_docx, template_path. run_monad.
  destruct (fs !! (UPLOAD_DIR // TEMPLATE_NAME)) as [template|] eqn:Htpl.
  - rewrite bool_decide_eq_true_2 by eauto. cbn [negb]. rewrite Htpl.
    destruct (DocxTemplate template) as [d | exc]; [| done].
    unfold jinja_env.
    destruct (docx_render d ctx _) as [rendered | exc]; reflexivity.
  - rewrite bool_decide_eq_false_2 by (intros [? ?]; discriminate). done.
Qed.

(** A render that returns has written the artifact named after the clock
    reading and nothing else. *)
Lemma render_docx_ok ctx now fs p fs' :
  _render_docx ctx now fs = (Ok p, fs') ->
  p = OUTPUT_DIR // docx_name now /\
  exists rendered, fs' = <[p := Bytes (docx_save rendered)]> fs.
Proof.
  rewrite render_docx_run.
  destruct (fs !! template_path) as [template|]; [| discriminate].
  destruct (DocxTemplate template) as [d | exc]; [| discriminate].
  destruct (docx_render d ctx jinja_env) as [rendered | exc]; [| discriminate].
  intros [= <- <-]. eauto.
Qed.

(** A render that raises has written nothing. *)
Lemma render_docx_raise ctx now fs e fs' :
  _render_docx ctx now fs = (Raise e, fs') -> fs' = fs.
Proof.
  rewrite render_docx_run.
  destruct (fs !! template_path) as [template|]; [| by intros [= _ <-]].
  destruct (DocxTemplate template) as [d | exc]; [| by intros [= _ <-]].
  destruct (docx_render d ctx jinja_env) as [rendered | exc]; [discriminate |].
  by intros [= _ <-].
Qed.

(** A form in which a field is found is the form [request.form()]
    returned. *)
Lemma form_get_form (request : Request) (key : string) (v : pyval) :
  multidict_get (form request) key = Some v -> _get_form request = Ok (form request).
Proof. unfold form. destruct (_get_form request); [done | discriminate]. Qed.

(** [generate] after its first step. *)
Lemma generate_context_raise (request : Request) now fs e :
  request_context request = Raise e ->
  generate request now fs = (Raise e, fs).
Proof.
  unfold request_context, generate, request_json, request_form. run_monad.
  destruct (Str.contains _ _).
  - destruct (json_loads_obj (PStr (body request))) as [payload | e0].
    + by intros ->.
    + by intros [= ->].
  - destruct (_get_form request) as [items | e0].
    + by intros ->.
    + by intros [= ->].
Qed.

Lemma generate_context_ok (request : Request) now fs ctx (flag : bool) :
  request_context request = Ok (ctx, flag) ->
  generate request now fs =
  (let* docx_path := _render_docx ctx now in
   if negb flag
   then ret {| resp_path := docx_path;
               resp_media_type := DOCX_MEDIA_TYPE;
               resp_filename := name docx_path;
               resp_background := None |}
   else
     let* pdf_path := _convert_to_pdf docx_path in
     let timestamp := Str.replace "output_" "" (stem docx_path) in
     let zip_path := TMP_DIR // ("output_" ++ timestamp ++ ".zip") in
     write zip_path (ZipArchive []) ;;
     archive_write zip_path docx_path (name docx_path) ;;
     archive_write zip_path pdf_path (name pdf_path) ;;
     ret {| resp_path := zip_path;
            resp_media_type := "application/zip";
            resp_filename := name zip_path;
            resp_background := Some (UnlinkMissingOk zip_path) |}) fs.
Proof.
  unfold request_context, generate, request_json, request_form.
  destruct (Str.contains _ _).
  - unfold bind at 1 2. unfold lift at 1 2.
    destruct (json_loads_obj (PStr (body request))) as [payload | e0]; [| discriminate].
    by intros ->.
  - unfold bind at 1 2 3. unfold lift at 1.
    destruct (_get_form request) as [items | e0]; [| discriminate].
    unfold ret at 1. unfold lift at 1.
    by intros ->.
Qed.

End RenderFacts.

(** C2 (as amended).  While no template is stored, [_render_docx] raises
    the template-missing error (status 400) for every context and writes
    nothing; every [generate] request raises and writes nothing, and its
    error is the template-missing one whenever the context of the request
    loads, and the error of context loading otherwise. *)
Theorem generate_without_template `{Collaborators}
    (request : Request) (now : datetime) (fs : FS) :
  fs !! template_path = None ->
  (forall ctx, _render_docx ctx now fs
               = (Raise (HTTPException 400 "尚未上傳母版 template.docx"), fs)) /\
  exists e,
    generate request now fs = (Raise e, fs) /\
    (forall ctx flag, request_context request = Ok (ctx, flag) ->
                      e = HTTPException 400 "尚未上傳母版 template.docx") /\
    (forall e', request_context request = Raise e' -> e = e').
Proof.
  intros Hnone.
  assert (Hrender : forall ctx, _render_docx ctx now fs
                    = (Raise (HTTPException 400 "尚未上傳母版 template.docx"), fs)).
  { intros ctx. rewrite render_docx_run. by rewrite Hnone. }
  split; [exact Hrender |].
  destruct (request_context request) as [[ctx flag] | e] eqn:Hctx.
  - exists (HTTPException 400 "尚未上傳母版 template.docx"). split; [| split].
    + rewrite (generate_context_ok request now fs ctx flag Hctx).
      unfold bind at 1. by rewrite Hrender.
    + done.
    + discriminate.
  - exists e. split; [| split].
    + by apply generate_context_raise.
    + discriminate.
    + by intros e' [= ->].
Qed.

(** With an empty store, a well-formed form request meets the
    template-missing error. *)
Lemma generate_without_template_witness :
  let C := Sample.collaborators Sample.soffice_ok in
  let request := Sample.form_request [("json_data", Sample.text_two_fields)] in
  Sample.fs_empty !! template_path = None /\
  request_context request = Ok (Sample.ctx_two_fields, false) /\
  generate request Sample.t0 Sample.fs_empty
    = (Raise (HTTPException 400 "尚未上傳母版 template.docx"), Sample.fs_empty).
Proof.
  intros C request.
  assert (Hnone : Sample.fs_empty !! template_path = None) by reflexivity.
  assert (Hctx : request_context request = Ok (Sample.ctx_two_fields, false))
    by reflexivity.
  split; [exact Hnone |]. split; [exact Hctx |].
  destruct (generate_without_template request Sample.t0 Sample.fs_empty Hnone)
    as (_ & e & Hrun & Hok & _).
  rewrite Hrun. by rewrite (Hok _ _ Hctx).
Defined.

(** With an empty store, a form request without [json_data] is answered
    with the missing-field error of context loading, not with the
    template-missing error. *)
Lemma generate_without_template_counterexample :
  let C := Sample.collaborators Sample.soffice_ok in
  let request := Sample.form_request [] in
  Sample.fs_empty !! template_path = None /\
  generate request Sample.t0 Sample.fs_empty
    = (Raise (HTTPException 400 "缺少 json_data"), Sample.fs_empty) /\
  HTTPException 400 "缺少 json_data" <> HTTPException 400 "尚未上傳母版 template.docx".
Proof. intros C request. split; [| split]; [reflexivity | reflexivity | discriminate]. Qed.

(** The small engine honours strict-undefined rendering. *)
Lemma sample_pieces_strict (ps : list Sample.piece) (context : gmap string pyval)
    (env : Environment) (n : string) :
  undefined env = StrictUndefined ->
  n ∈ Sample.placeholders ps ->
  context !! n = None ->
  exists msg, Sample.render_pieces ps context env = inr msg.
Proof.
  intros Hstrict Hin Hmissing.
  induction ps as [| [text | m] rest IH]; simpl in *.
  - by apply elem_of_nil in Hin.
  - destruct (IH Hin) as [msg ->]. eauto.
  - apply elem_of_cons in Hin as [<- | Hin].
    + rewrite Hmissing, Hstrict. eauto.
    + destruct (IH Hin) as [msg ->].
      destruct (context !! m) as [v|]; [destruct (Sample.value_text v) |]; eauto.
      rewrite Hstrict. eauto.
Qed.

Lemma sample_engine_strict conv :
  honours_strict_undefined (H := Sample.collaborators conv) Sample.doc_placeholders.
Proof.
  intros d context env n Hstrict Hin Hmissing.
  change (exists msg, Sample.render d context env = inr msg).
  unfold Sample.doc_placeholders in Hin. unfold Sample.render.
  destruct (Sample.template_pieces (Sample.doc_file d)) as [ps | e]; [| eauto].
  destruct (sample_pieces_strict ps context env n Hstrict Hin Hmissing) as [msg ->].
  eauto.
Qed.

(** C3.  For an engine that honours strict-undefined rendering: when the
    stored template opens and has a placeholder whose name the context
    does not define, rendering raises some message, and [_render_docx]
    raises an [HTTPException] with status 400 whose detail ends with that
    message; no file is written, so no document with a blank in place of
    the placeholder comes to exist. *)
Theorem render_missing_placeholder `{Collaborators}
    (placeholders : document -> list string)
    (ctx : gmap string pyval) (now : datetime) (fs : FS)
    (template : content) (d : document) (n : string) :
  honours_strict_undefined placeholders ->
  fs !! template_path = Some template ->
  DocxTemplate template = inl d ->
  n ∈ placeholders d ->
  ctx !! n = None ->
  exists msg,
    docx_render d ctx {| autoescape := false; undefined := StrictUndefined |} = inr msg /\
    _render_docx ctx now fs = (Raise (HTTPException 400 ("產生內容失敗: " ++ msg)), fs).
Proof.
  intros Hstrict Htpl Hopen Hin Hmissing.
  destruct (Hstrict d ctx jinja_env n eq_refl Hin Hmissing) as [msg Hmsg].
  exists msg. split; [exact Hmsg |].
  rewrite render_docx_run, Htpl, Hopen, Hmsg. reflexivity.
Qed.

(** The template of the home page example rendered without [requester]. *)
Lemma render_missing_placeholder_witness :
  let C := Sample.collaborators Sample.soffice_ok in
  let d := Sample.Template (Bytes Sample.template_bytes) in
  Sample.fs_template !! template_path = Some (Bytes Sample.template_bytes) /\
  DocxTemplate (Bytes Sample.template_bytes) = inl d /\
  "requester" ∈ Sample.doc_placeholders d /\
  Sample.ctx_one_field !! "requester" = None /\
  exists msg,
    docx_render d Sample.ctx_one_field
      {| autoescape := false; undefined := StrictUndefined |} = inr msg /\
    _render_docx Sample.ctx_one_field Sample.t0 Sample.fs_template
      = (Raise (HTTPException 400 ("產生內容失敗: " ++ msg)), Sample.fs_template).
Proof.
  intros C d.
  assert (Htpl : Sample.fs_template !! template_path = Some (Bytes Sample.template_bytes))
    by reflexivity.
  assert (Hopen : DocxTemplate (Bytes Sample.template_bytes) = inl d) by reflexivity.
  assert (Hin : "requester" ∈ Sample.doc_placeholders d).
  { change ("requester" ∈ ["dept_name"; "requester"]).
    apply elem_of_cons. right. apply elem_of_cons. by left. }
  assert (Hmissing : Sample.ctx_one_field !! "requester" = None) by reflexivity.
  split; [exact Htpl |]. split; [exact Hopen |]. split; [exact Hin |].
  split; [exact Hmissing |].
  exact (render_missing_placeholder Sample.doc_placeholders Sample.ctx_one_field Sample.t0
           Sample.fs_template (Bytes Sample.template_bytes) d "requester"
           (sample_engine_strict Sample.soffice_ok) Htpl Hopen Hin Hmissing).
Defined.

(** The same template under the lenient policy: the small engine puts the
    empty string where [requester] is, which is what [StrictUndefined]
    rules out. *)
Example sample_lenient_blank :
  Sample.render_pieces
    [Sample.Lit ""; Sample.Var "dept_name"; Sample.Lit " / "; Sample.Var "requester"]
    Sample.ctx_one_field {| autoescape := false; undefined := Undefined |}
  = inl [Sample.Lit ""; Sample.Lit "Z"; Sample.Lit " / "; Sample.Lit ""].
Proof. reflexivity. Qed.

(** C8 (as amended).  A render that returns has written the file
    [output_<timestamp>.docx] of the output directory, the timestamp
    being the clock reading formatted to the second, and has changed no
    other file.  Two renders that return, at valid clock readings, give
    the same path exactly when the readings agree down to the second. *)
Theorem render_artifact_name `{Collaborators}
    (ctx : gmap string pyval) (now : datetime) (fs : FS) (p : Path) (fs' : FS) :
  _render_docx ctx now fs = (Ok p, fs') ->
  p = OUTPUT_DIR // ("output_" ++ strftime_YmdHMS now ++ ".docx") /\
  (exists data, fs' !! p = Some (Bytes data)) /\
  (forall q, q <> p -> fs' !! q = fs !! q) /\
  (forall ctx2 now2 fs2 p2 fs2',
      datetime_ok now -> datetime_ok now2 ->
      _render_docx ctx2 now2 fs2 = (Ok p2, fs2') ->
      (p = p2 <-> same_second now now2)).
Proof.
  intros Hrun. destruct (render_docx_ok _ _ _ _ _ Hrun) as (Hp & rendered & Hfs).
  split; [exact Hp |]. split; [| split].
  - exists (docx_save rendered). rewrite Hfs. apply lookup_insert_eq.
  - intros q Hq. rewrite Hfs. by apply lookup_insert_ne.
  - intros ctx2 now2 fs2 p2 fs2' Hok Hok2 Hrun2.
    destruct (render_docx_ok _ _ _ _ _ Hrun2) as (Hp2 & _ & _).
    rewrite Hp, Hp2, <- (docx_name_eq_iff now now2 Hok Hok2). split.
    + intros E. exact (f_equal name E).
    + by intros ->.
Qed.

(** Two renders one second apart. *)
Lemma render_artifact_name_witness :
  let C := Sample.collaborators Sample.soffice_ok in
  let p := OUTPUT_DIR // "output_20261103090507.docx" in
  let p2 := OUTPUT_DIR // "output_20261103090508.docx" in
  exists fs1 fs2,
    _render_docx Sample.ctx_two_fields Sample.t0 Sample.fs_template = (Ok p, fs1) /\
    _render_docx Sample.ctx_other Sample.t1 fs1 = (Ok p2, fs2) /\
    fs2 !! p = fs1 !! p /\
    (p = p2 <-> same_second Sample.t0 Sample.t1).
Proof.
  intros C p p2.
  set (fs1 := snd (_render_docx Sample.ctx_two_fields Sample.t0 Sample.fs_template)).
  set (fs2 := snd (_render_docx Sample.ctx_other Sample.t1 fs1)).
  assert (Hrun1 : _render_docx Sample.ctx_two_fields Sample.t0 Sample.fs_template
                  = (Ok p, fs1)) by run_concrete.
  assert (Hrun2 : _render_docx Sample.ctx_other Sample.t1 fs1 = (Ok p2, fs2))
    by run_concrete.
  exists fs1, fs2. split; [exact Hrun1 |]. split; [exact Hrun2 |].
  destruct (render_artifact_name _ _ _ _ _ Hrun2) as (_ & _ & Hframe & _).
  destruct (render_artifact_name _ _ _ _ _ Hrun1) as (_ & _ & _ & Hsame).
  split.
  - apply Hframe. discriminate.
  - apply (Hsame Sample.ctx_other Sample.t1 fs1 p2 fs2); [ | | exact Hrun2];
      vm_compute; intuition discriminate.
Defined.

(** Two renders within one second, 750 ms apart: both return the same
    path, and the second replaces what the first wrote. *)
Lemma render_same_second_counterexample :
  let C := Sample.collaborators Sample.soffice_ok in
  let p := OUTPUT_DIR // "output_20261103090507.docx" in
  microsecond Sample.t0 <> microsecond Sample.t0_later /\
  exists fs1 fs2,
    _render_docx Sample.ctx_two_fields Sample.t0 Sample.fs_template = (Ok p, fs1) /\
    _render_docx Sample.ctx_other Sample.t0_later fs1 = (Ok p, fs2) /\
    fs1 !! p = Some (Bytes "PKX / Y") /\
    fs2 !! p = Some (Bytes "PKA / B").
Proof.
  intros C p. split; [discriminate |].
  set (fs1 := snd (_render_docx Sample.ctx_two_fields Sample.t0 Sample.fs_template)).
  exists fs1, (snd (_render_docx Sample.ctx_other Sample.t0_later fs1)).
  split; [run_concrete |]. split; [run_concrete |].
  split; vm_compute; reflexivity.
Qed.

(* ===================================================================== *)
(** ** Conversion *)
(* ===================================================================== *)

Section ConvertFacts.
Context `{Collaborators}.
Implicit Types (p q : Path) (fs : FS).

(** The path [_convert_to_pdf] expects the PDF at. *)
Lemma with_suffix_pdf p :
  name p <> "" -> with_suffix p ".pdf" = Ok (parent p // (stem p ++ ".pdf")).
Proof.
  intros Hne. unfold with_suffix, stem.
  destruct (name p) as [|a n] eqn:Hn; [done |].
  by destruct (suffix_index (String a n)).
Qed.

(** [_convert_to_pdf] by cases on the run of the converter. *)
Lemma convert_run p fs :
  name p <> "" ->
  _convert_to_pdf p fs =
  match soffice (soffice_command p) fs with
  | None => (Raise (FileNotFoundError "soffice"), fs)
  | Some (completed, produced) =>
      let pdf_path := OUTPUT_DIR // (stem p ++ ".pdf") in
      let fs' := match produced with
                 | Some pdf => <[pdf_path := Bytes pdf]> fs
                 | None => fs
                 end in
      if negb (returncode completed =? 0)
      then (Raise (HTTPException 500
                     (MSG_CONVERT (Str.or_else (stderr completed) (stdout completed)))), fs')
      else if bool_decide (is_Some (fs' !! pdf_path))
           then (Ok pdf_path, fs')
           else (Raise (HTTPException 500 MSG_NO_PDF), fs')
  end.
Proof.
  intros Hne. unfold _convert_to_pdf.
  rewrite (with_suffix_pdf p Hne). unfold bind at 1. unfold lift at 1.
  cbn [name]. unfold bind at 1. unfold subprocess_run, soffice_command.
  destruct (soffice _ fs) as [[completed [pdf|]]|]; [| | reflexivity].
  - cbv zeta. destruct (negb (returncode completed =? 0)); [reflexivity |].
    run_monad. by destruct (bool_decide _).
  - cbv zeta. destruct (negb (returncode completed =? 0)); [reflexivity |].
    run_monad. by destruct (bool_decide _).
Qed.

(** Conversion touches no file but the PDF sibling of its input. *)
Lemma convert_frame p fs (r : result Path) fs' q :
  _convert_to_pdf p fs = (r, fs') ->
  q <> OUTPUT_DIR // (stem p ++ ".pdf") ->
  fs' !! q = fs !! q.
Proof.
  intros Hrun Hq.
  destruct (decide (name p = "")) as [Hn | Hn].
  - unfold _convert_to_pdf, with_suffix in Hrun. rewrite Hn in Hrun.
    unfold bind, lift in Hrun. by injection Hrun as _ <-.
  - rewrite (convert_run p fs Hn) in Hrun.
    destruct (soffice _ fs) as [[completed produced]|]; [| by injection Hrun as _ <-].
    cbv zeta in Hrun.
    assert (Hfs : fs' = match produced with
                        | Some pdf => <[OUTPUT_DIR // (stem p ++ ".pdf") := Bytes pdf]> fs
                        | None => fs
                        end).
    { destruct (negb (returncode completed =? 0)); [by injection Hrun as _ <- |].
      destruct (bool_decide _); by injection Hrun as _ <-. }
    rewrite Hfs. destruct produced; [by rewrite lookup_insert_ne | done].
Qed.

(** A conversion that returns leaves the PDF at the path it returns. *)
Lemma convert_ok p fs pdf_path fs' :
  _convert_to_pdf p fs = (Ok pdf_path, fs') ->
  pdf_path = OUTPUT_DIR // (stem p ++ ".pdf") /\ is_Some (fs' !! pdf_path).
Proof.
  intros Hrun.
  destruct (decide (name p = "")) as [Hn | Hn].
  - unfold _convert_to_pdf, with_suffix in Hrun. rewrite Hn in Hrun.
    unfold bind, lift in Hrun. discriminate Hrun.
  - rewrite (convert_run p fs Hn) in Hrun.
    destruct (soffice _ fs) as [[completed produced]|]; [| discriminate Hrun].
    cbv zeta in Hrun.
    destruct (negb (returncode completed =? 0)); [discriminate Hrun |].
    destruct (bool_decide _) eqn:Hex; [| discriminate Hrun].
    injection Hrun as <- <-. split; [done |].
    by apply bool_decide_eq_true_1 in Hex.
Qed.

End ConvertFacts.




(* ===================================================================== *)
(** ** The generate handler *)
(* ===================================================================== *)

Section GenerateFacts.
Context `{Collaborators}.
Implicit Types (p q : Path) (fs : FS) (now : datetime).

(** The PDF sibling of an artifact, as [stem] gives it. *)
Lemma stem_pdf_name d now : stem (d // docx_name now) ++ ".pdf" = pdf_name now.
Proof. rewrite stem_docx. unfold pdf_name. by rewrite append_assoc. Qed.

Lemma artifact_not_its_pdf now :
  OUTPUT_DIR // docx_name now <> OUTPUT_DIR // pdf_name now.
Proof. intros E. exact (docx_pdf_names_differ now now (f_equal name E)). Qed.

(** Writing the archive: both members are read from the store and the
    archive ends up holding the two of them, in order. *)
Lemma package_run (docx_path pdf_path zip_path : Path) (n1 n2 : string)
    (docx pdf : content) (response : FileResponse) fs :
  fs !! docx_path = Some docx ->
  fs !! pdf_path = Some pdf ->
  zip_path <> docx_path ->
  zip_path <> pdf_path ->
  (write zip_path (ZipArchive []) ;;
   archive_write zip_path docx_path n1 ;;
   archive_write zip_path pdf_path n2 ;;
   ret response) fs
  = (Ok response, <[zip_path := ZipArchive [(n1, docx); (n2, pdf)]]> fs).
Proof.
  intros Hdocx Hpdf Hne1 Hne2.
  unfold archive_write. run_monad.
  rewrite lookup_insert_ne by done. rewrite Hdocx. cbv beta iota.
  rewrite lookup_insert_eq. cbv beta iota. rewrite insert_insert_eq.
  rewrite lookup_insert_ne by done. rewrite Hpdf. cbv beta iota.
  rewrite lookup_insert_eq. cbv beta iota. rewrite insert_insert_eq.
  reflexivity.
Qed.

(** Sending a response whose file is there, by cases on the [Range]
    header. *)
Lemma send_run (request : Request) (response : FileResponse) (file_ : content) fs :
  fs !! resp_path response = Some file_ ->
  send request response fs =
  let fs_done := (run_background (resp_background response) fs).2 in
  match headers request !! "range" with
  | None => (Ok (WholeFile file_), fs_done)
  | Some http_range =>
      if range_ruled_out (headers request !! "if-range") file_
      then (Ok (WholeFile file_), fs_done)
      else
        match _parse_range_header http_range file_ with
        | MalformedRangeHeader => (Ok (Refusal 400), fs)
        | RangeNotSatisfiable => (Ok (Refusal 416), fs)
        | ServeRanges ranges => (Ok (FileRanges ranges file_), fs_done)
        end
  end.
Proof.
  intros Hfile. unfold send. run_monad.
  rewrite bool_decide_eq_true_2 by eauto. cbn [negb]. rewrite Hfile. cbv zeta.
  assert (Hbg : run_background (resp_background response) fs
                = (Ok tt, (run_background (resp_background response) fs).2)).
  { unfold run_background. by destruct (resp_background response) as [[p]|]. }
  destruct (headers request !! "range") as [http_range|].
  - destruct (range_ruled_out _ file_).
    + by rewrite Hbg.
    + destruct (_parse_range_header http_range file_); [by rewrite Hbg | done | done].
  - by rewrite Hbg.
Qed.

(** Sending a response whose file is not there. *)
Lemma send_missing (request : Request) (response : FileResponse) fs :
  fs !! resp_path response = None ->
  send request response fs
  = (Raise (RuntimeError ("File at path " ++ path_str BASE_DIR (resp_path response)
                          ++ " does not exist.")), fs).
Proof.
  intros Hfile. unfold send. run_monad.
  rewrite bool_decide_eq_false_2 by (rewrite Hfile; intros [? ?]; discriminate).
  reflexivity.
Qed.

End GenerateFacts.

(** C1 (what the code does).  A request whose content type names
    [application/json] and whose body does not parse: [request.json()]
    raises the [JSONDecodeError], nothing in [generate] catches it, and
    the framework answers with status 500, not with a 400 that carries
    the parse message. *)
Theorem generate_json_body_malformed `{Collaborators}
    (request : Request) (now : datetime) (fs : FS) (ct exc : string) :
  headers request !! "content-type" = Some ct ->
  Str.contains "application/json" ct = true ->
  json_loads (body request) = inr exc ->
  generate request now fs = (Raise (JSONDecodeError exc), fs) /\
  response_status (JSONDecodeError exc) = 500.
Proof.
  intros Hheader Hct Hparse. split; [| reflexivity].
  apply generate_context_raise. unfold request_context.
  rewrite Hheader, Hct, json_loads_obj_str, Hparse. reflexivity.
Qed.

(** The body [{] sent as [application/json]. *)
Lemma generate_json_body_malformed_witness :
  let C := Sample.collaborators Sample.soffice_ok in
  let exc := "Expecting property name enclosed in double quotes: line 1 column 2 (char 1)" in
  json_loads "{" = inr exc /\
  generate (Sample.json_request "{") Sample.t0 Sample.fs_template
    = (Raise (JSONDecodeError exc), Sample.fs_template) /\
  response_status (JSONDecodeError exc) = 500.
Proof.
  intros C exc. split; [reflexivity |].
  exact (generate_json_body_malformed (Sample.json_request "{") Sample.t0
           Sample.fs_template "application/json" exc eq_refl eq_refl eq_refl).
Defined.

(** The form path on the same text: the parse error is caught and turned
    into a 400 that carries the parse message. *)
Lemma generate_form_malformed `{Collaborators}
    (request : Request) (now : datetime) (fs : FS) (ct s exc : string) :
  headers request !! "content-type" = Some ct ->
  Str.contains "application/json" ct = false ->
  multidict_get (form request) "json_data" = Some (PStr s) ->
  s <> "" ->
  json_loads s = inr exc ->
  generate request now fs = (Raise (HTTPException 400 ("JSON 解析錯誤: " ++ exc)), fs).
Proof.
  intros Hheader Hct Hfield Hne Hparse.
  apply generate_context_raise. unfold request_context. rewrite Hheader, Hct.
  rewrite (form_get_form request _ _ Hfield).
  rewrite (load_form_parse ct _ s); [by rewrite Hparse | done | done | | done].
  cbn [py_get]. by rewrite Hfield.
Qed.

(** C10.  A rendering that raises leaves the store as it was: the error
    (status 400, with the message of the engine) is raised before
    anything is saved.  A conversion that raises after a render that
    returned fails the request with the conversion error and leaves the
    rendered artifact in the output directory, with the contents the
    render saved. *)
Theorem render_atomic_convert_keeps_artifact `{Collaborators} :
  (forall (ctx : gmap string pyval) (now : datetime) (fs : FS) template d exc,
      fs !! template_path = Some template ->
      DocxTemplate template = inl d ->
      docx_render d ctx jinja_env = inr exc ->
      _render_docx ctx now fs
      = (Raise (HTTPException 400 ("產生內容失敗: " ++ exc)), fs)) /\
  (forall (request : Request) (ctx : gmap string pyval) (now : datetime)
          (fs fs1 fs2 : FS) (p : Path) (e : exn),
      request_context request = Ok (ctx, true) ->
      _render_docx ctx now fs = (Ok p, fs1) ->
      _convert_to_pdf p fs1 = (Raise e, fs2) ->
      generate request now fs = (Raise e, fs2) /\
      exists data, fs1 !! p = Some (Bytes data) /\ fs2 !! p = Some (Bytes data)).
Proof.
  split.
  - intros ctx now fs template d exc Htpl Hopen Hrender.
    rewrite render_docx_run, Htpl, Hopen, Hrender. reflexivity.
  - intros request ctx now fs fs1 fs2 p e Hctx Hrender Hconvert. split.
    + rewrite (generate_context_ok request now fs ctx true Hctx).
      unfold bind at 1. rewrite Hrender. cbn [negb].
      unfold bind at 1. rewrite Hconvert. reflexivity.
    + destruct (render_docx_ok _ _ _ _ _ Hrender) as (Hp & rendered & Hfs1).
      exists (docx_save rendered).
      assert (Hsaved : fs1 !! p = Some (Bytes (docx_save rendered))).
      { rewrite Hfs1. apply lookup_insert_eq. }
      split; [exact Hsaved |].
      rewrite (convert_frame p fs1 (Raise e) fs2 p Hconvert); [exact Hsaved |].
      rewrite Hp at 2. rewrite stem_pdf_name. rewrite Hp.
      apply artifact_not_its_pdf.
Qed.

(** A context without [requester], and a converter that exits with
    status 1 after a render that returned. *)
Lemma render_atomic_convert_keeps_artifact_witness :
  let p := OUTPUT_DIR // "output_20261103090507.docx" in
  let request :=
    Sample.form_request
      [("json_data", Sample.text_two_fields); ("generate_pdf", "on")] in
  _render_docx (H := Sample.collaborators Sample.soffice_exit1)
      Sample.ctx_one_field Sample.t0 Sample.fs_template
    = (Raise (HTTPException 400 "產生內容失敗: 'requester' is undefined"),
       Sample.fs_template) /\
  exists fs2,
    generate (H := Sample.collaborators Sample.soffice_exit1)
        request Sample.t0 Sample.fs_template
      = (Raise (HTTPException 500 "PDF 轉換失敗: Error: source file could not be loaded"),
         fs2) /\
    fs2 !! p = Some (Bytes "PKX / Y").
Proof.
  intros p request.
  set (C := Sample.collaborators Sample.soffice_exit1).
  destruct (render_atomic_convert_keeps_artifact (H := C)) as [Hatomic Hkeeps].
  split.
  - exact (Hatomic Sample.ctx_one_field Sample.t0 Sample.fs_template
             (Bytes Sample.template_bytes)
             (Sample.Template (Bytes Sample.template_bytes))
             "'requester' is undefined" eq_refl eq_refl eq_refl).
  - set (fs1 := snd (_render_docx (H := C) Sample.ctx_two_fields Sample.t0
                       Sample.fs_template)).
    set (fs2 := snd (_convert_to_pdf (H := C) p fs1)).
    assert (Hrender : _render_docx (H := C) Sample.ctx_two_fields Sample.t0
                        Sample.fs_template = (Ok p, fs1))
      by run_concrete.
    assert (Hconvert : _convert_to_pdf (H := C) p fs1
              = (Raise (HTTPException 500
                          "PDF 轉換失敗: Error: source file could not be loaded"), fs2))
      by run_concrete.
    destruct (Hkeeps request Sample.ctx_two_fields Sample.t0 Sample.fs_template
                fs1 fs2 p _ eq_refl Hrender Hconvert) as (Hrun & data & Hsaved1 & Hsaved2).
    exists fs2. split; [exact Hrun |].
    rewrite Hsaved2, <- Hsaved1. vm_compute. reflexivity.
Defined.

(** C6 (as amended).  A [generate] request that asks for conversion and
    returns: the response is a file response for the zip at
    [output_<timestamp>.zip] of the scratch directory, with media type
    [application/zip] and the clean-up of that zip as background task.
    The zip holds exactly two members, the rendered artifact under
    [output_<timestamp>.docx] and its PDF sibling under
    [output_<timestamp>.pdf].  When the response is sent next, in answer
    to a request without a [Range] header, the client is sent that
    archive and the zip is then gone from the scratch directory.  In
    answer to any request the sending ends, both artifacts stay in the
    output directory, and either the archive (whole or in ranges) was
    sent and the zip is gone, or the [Range] header was refused with
    status 400 or 416 and the zip is still in the scratch directory. *)
Theorem generate_zip_response `{Collaborators}
    (request : Request) (ctx : gmap string pyval) (now : datetime)
    (fs fs' : FS) (response : FileResponse) :
  request_context request = Ok (ctx, true) ->
  generate request now fs = (Ok response, fs') ->
  let docx_path := OUTPUT_DIR // docx_name now in
  let pdf_path := OUTPUT_DIR // pdf_name now in
  let zip_path := TMP_DIR // zip_name now in
  response = {| resp_path := zip_path;
                resp_media_type := "application/zip";
                resp_filename := zip_name now;
                resp_background := Some (UnlinkMissingOk zip_path) |} /\
  exists docx pdf,
    let archive := ZipArchive [(docx_name now, docx); (pdf_name now, pdf)] in
    fs' !! zip_path = Some archive /\
    fs' !! docx_path = Some docx /\
    fs' !! pdf_path = Some pdf /\
    (headers request !! "range" = None ->
       exists fs'',
         send request response fs' = (Ok (WholeFile archive), fs'') /\
         fs'' !! zip_path = None /\
         fs'' !! docx_path = Some docx /\
         fs'' !! pdf_path = Some pdf) /\
    (forall r fs'',
       send request response fs' = (r, fs'') ->
       fs'' !! docx_path = Some docx /\
       fs'' !! pdf_path = Some pdf /\
       match r with
       | Ok (WholeFile file_) => file_ = archive /\ fs'' !! zip_path = None
       | Ok (FileRanges _ file_) => file_ = archive /\ fs'' !! zip_path = None
       | Ok (Refusal status) =>
           (status = 400 \/ status = 416) /\ fs'' !! zip_path = Some archive
       | Raise _ => False
       end).
Proof.
  intros Hctx Hrun docx_path pdf_path zip_path.
  rewrite (generate_context_ok request now fs ctx true Hctx) in Hrun.
  unfold bind at 1 in Hrun.
  destruct (_render_docx ctx now fs) as [[p | e] fs1] eqn:Hrender; [| discriminate Hrun].
  cbn [negb] in Hrun. unfold bind at 1 in Hrun.
  destruct (_convert_to_pdf p fs1) as [[pdf_p | e] fs2] eqn:Hconvert;
    [| discriminate Hrun].
  destruct (render_docx_ok _ _ _ _ _ Hrender) as (Hp & rendered & Hfs1).
  destruct (convert_ok _ _ _ _ Hconvert) as (Hpdf_p & [pdf Hpdf]).
  assert (Hdocx : fs2 !! p = Some (Bytes (docx_save rendered))).
  { rewrite (convert_frame p fs1 (Ok pdf_p) fs2 p Hconvert).
    - rewrite Hfs1. apply lookup_insert_eq.
    - rewrite Hp at 2. rewrite stem_pdf_name. rewrite Hp.
      apply artifact_not_its_pdf. }
  rewrite Hp, stem_pdf_name in Hpdf_p. fold pdf_path in Hpdf_p.
  rewrite Hp in Hrun, Hdocx. fold docx_path in Hdocx. subst pdf_p.
  rewrite replace_output_stem in Hrun. fold (zip_name now) in Hrun.
  cbn [name] in Hrun. fold zip_path in Hrun.
  rewrite (package_run (OUTPUT_DIR // docx_name now) pdf_path zip_path _ _
             (Bytes (docx_save rendered)) pdf) in Hrun; [| done..].
  injection Hrun as <- <-. split; [reflexivity |].
  exists (Bytes (docx_save rendered)), pdf. cbv zeta.
  set (archive := ZipArchive [(docx_name now, Bytes (docx_save rendered));
                              (pdf_name now, pdf)]).
  set (response := {| resp_path := zip_path;
                      resp_media_type := "application/zip";
                      resp_filename := zip_name now;
                      resp_background := Some (UnlinkMissingOk zip_path) |}).
  assert (Hzip : <[zip_path := archive]> fs2 !! zip_path = Some archive)
    by apply lookup_insert_eq.
  assert (Hdocx' : <[zip_path := archive]> fs2 !! docx_path
                   = Some (Bytes (docx_save rendered)))
    by (by rewrite lookup_insert_ne).
  assert (Hpdf' : <[zip_path := archive]> fs2 !! pdf_path = Some pdf)
    by (by rewrite lookup_insert_ne).
  assert (Hgone : (run_background (resp_background response)
                     (<[zip_path := archive]> fs2)).2 = delete zip_path fs2).
  { unfold response. cbn [resp_background run_background].
    unfold unlink_missing_ok. cbn [snd]. apply delete_insert_eq. }
  assert (Hsend := send_run request response archive (<[zip_path := archive]> fs2) Hzip).
  cbv zeta in Hsend. rewrite Hgone in Hsend.
  split; [exact Hzip |]. split; [exact Hdocx' |]. split; [exact Hpdf' |]. split.
  - intros Hrange. rewrite Hrange in Hsend.
    exists (delete zip_path fs2). split; [exact Hsend |]. split; [| split].
    + apply lookup_delete_eq.
    + by rewrite lookup_delete_ne.
    + by rewrite lookup_delete_ne.
  - intros r fs''. rewrite Hsend.
    assert (Hdone : delete zip_path fs2 !! docx_path = Some (Bytes (docx_save rendered))
                    /\ delete zip_path fs2 !! pdf_path = Some pdf
                    /\ delete zip_path fs2 !! zip_path = None).
    { split; [| split]; [by rewrite lookup_delete_ne | by rewrite lookup_delete_ne
                         | apply lookup_delete_eq]. }
    destruct Hdone as (Hd1 & Hd2 & Hd3).
    destruct (headers request !! "range") as [http_range|].
    + destruct (range_ruled_out _ archive).
      * intros [= <- <-]. auto.
      * destruct (_parse_range_header http_range archive); intros [= <- <-]; auto 6.
    + intros [= <- <-]. auto.
Qed.

(** The home page example with the PDF box ticked. *)
Lemma generate_zip_response_witness :
  let C := Sample.collaborators Sample.soffice_ok in
  let request :=
    Sample.form_request
      [("json_data", Sample.text_two_fields); ("generate_pdf", "on")] in
  let zip_path := TMP_DIR // "output_20261103090507.zip" in
  let archive := ZipArchive [("output_20261103090507.docx", Bytes "PKX / Y");
                             ("output_20261103090507.pdf", Bytes "%PDF-1.7")] in
  request_context request = Ok (Sample.ctx_two_fields, true) /\
  headers request !! "range" = None /\
  exists response fs' fs'',
    generate request Sample.t0 Sample.fs_template = (Ok response, fs') /\
    resp_path response = zip_path /\
    fs' !! zip_path = Some archive /\
    send request response fs' = (Ok (WholeFile archive), fs'') /\
    fs'' !! zip_path = None /\
    fs'' !! (OUTPUT_DIR // "output_20261103090507.docx") = Some (Bytes "PKX / Y") /\
    fs'' !! (OUTPUT_DIR // "output_20261103090507.pdf") = Some (Bytes "%PDF-1.7").
Proof.
  intros C request zip_path archive.
  assert (Hctx : request_context request = Ok (Sample.ctx_two_fields, true))
    by (vm_compute; reflexivity).
  assert (Hrange : headers request !! "range" = None) by reflexivity.
  split; [exact Hctx |]. split; [exact Hrange |].
  set (response := {| resp_path := zip_path;
                      resp_media_type := "application/zip";
                      resp_filename := "output_20261103090507.zip";
                      resp_background := Some (UnlinkMissingOk zip_path) |}).
  set (fs' := snd (generate request Sample.t0 Sample.fs_template)).
  assert (Hrun : generate request Sample.t0 Sample.fs_template = (Ok response, fs'))
    by run_concrete.
  destruct (generate_zip_response request Sample.ctx_two_fields Sample.t0
              Sample.fs_template fs' response Hctx Hrun)
    as (_ & docx & pdf & Hzip & _ & _ & Hplain & _).
  assert (Harchive : fs' !! zip_path = Some archive) by (vm_compute; reflexivity).
  change (TMP_DIR // zip_name Sample.t0) with zip_path in Hzip.
  rewrite Harchive in Hzip. injection Hzip as Hd Hp.
  change (Bytes "PKX / Y" = docx) in Hd. change (Bytes "%PDF-1.7" = pdf) in Hp.
  subst docx pdf.
  destruct (Hplain Hrange) as (fs'' & Hsend & Hgone & Hdocx & Hpdf).
  exists response, fs', fs''. split; [exact Hrun |]. split; [reflexivity |].
  split; [exact Harchive |].
  split; [exact Hsend |]. split; [exact Hgone |]. split; [exact Hdocx | exact Hpdf].
Defined.

(** Two ways in which the zip is not deleted after a response to a
    request that succeeded.  A request with the header [Range: bytes],
    which has no [=]: the handler returns the zip response, the framework
    answers 400 on sending it, and the zip stays in the scratch
    directory.  And two requests within one second: both are given the
    same zip path, the second writes over the archive of the first, the
    first response sends the documents of the second request and removes
    the zip, and the second response finds no file. *)
Lemma generate_zip_response_counterexample :
  let C := Sample.collaborators Sample.soffice_ok in
  let zip_path := TMP_DIR // "output_20261103090507.zip" in
  let archive_XY := ZipArchive [("output_20261103090507.docx", Bytes "PKX / Y");
                                ("output_20261103090507.pdf", Bytes "%PDF-1.7")] in
  let archive_AB := ZipArchive [("output_20261103090507.docx", Bytes "PKA / B");
                                ("output_20261103090507.pdf", Bytes "%PDF-1.7")] in
  let fields := [("json_data", Sample.text_two_fields); ("generate_pdf", "on")] in
  let ranged :=
    {| headers := <["range" := "bytes"]> (headers (Sample.form_request fields));
       body := body (Sample.form_request fields) |} in
  let first := Sample.form_request fields in
  let second :=
    Sample.form_request [("json_data", Sample.text_other); ("generate_pdf", "on")] in
  (exists response fs',
     generate ranged Sample.t0 Sample.fs_template = (Ok response, fs') /\
     resp_path response = zip_path /\
     send ranged response fs' = (Ok (Refusal 400), fs') /\
     fs' !! zip_path = Some archive_XY) /\
  (exists response1 response2 fs1 fs2 fs3,
     generate first Sample.t0 Sample.fs_template = (Ok response1, fs1) /\
     generate second Sample.t0_later fs1 = (Ok response2, fs2) /\
     resp_path response1 = zip_path /\ resp_path response2 = zip_path /\
     send first response1 fs2 = (Ok (WholeFile archive_AB), fs3) /\
     fs3 !! zip_path = None /\
     send second response2 fs3
     = (Raise (RuntimeError
                 "File at path /srv/app/data/tmp/output_20261103090507.zip does not exist."),
        fs3)).
Proof.
  intros C zip_path archive_XY archive_AB fields ranged first second. split.
  - set (fs' := snd (generate ranged Sample.t0 Sample.fs_template)).
    set (response := {| resp_path := zip_path;
                        resp_media_type := "application/zip";
                        resp_filename := "output_20261103090507.zip";
                        resp_background := Some (UnlinkMissingOk zip_path) |}).
    exists response, fs'.
    assert (Hzip : fs' !! zip_path = Some archive_XY) by (vm_compute; reflexivity).
    split; [run_concrete |]. split; [reflexivity |]. split; [| exact Hzip].
    exact (send_run ranged response archive_XY fs' Hzip).
  - set (fs1 := snd (generate first Sample.t0 Sample.fs_template)).
    set (fs2 := snd (generate second Sample.t0_later fs1)).
    set (response := {| resp_path := zip_path;
                        resp_media_type := "application/zip";
                        resp_filename := "output_20261103090507.zip";
                        resp_background := Some (UnlinkMissingOk zip_path) |}).
    set (fs3 := snd (send first response fs2)).
    exists response, response, fs1, fs2, fs3.
    assert (Hgone : fs3 !! zip_path = None) by (vm_compute; reflexivity).
    split; [run_concrete |]. split; [run_concrete |].
    split; [reflexivity |]. split; [reflexivity |].
    split; [run_concrete |]. split; [exact Hgone |].
    rewrite (send_missing second response fs3 Hgone). reflexivity.
Qed.

(* ===================================================================== *)
(** ** Further properties: context loading *)
(* ===================================================================== *)

Section ContextMore.
Context `{Collaborators}.
Implicit Types (ct s : string) (rd v : pyval) (items : list (string * pyval)).



End ContextMore.

(** X1.  In the JSON path, [_load_context_from_request] returns exactly
    when the payload is an object whose [data] is an object; the context
    is that object and the flag is the truthiness of [generate_pdf]
    (false when missing).  Whatever else the payload is, the error is an
    [HTTPException] with status 400. *)
Theorem load_context_json_iff `{Collaborators} (ct : string) (rd : pyval) :
  Str.contains "application/json" ct = true ->
  (forall (ctx : gmap string pyval) (flag : bool),
      _load_context_from_request ct rd = Ok (ctx, flag) <->
      exists d : gmap string pyval,
        rd = PDict d /\ d !! "data" = Some (PDict ctx) /\
        flag = match d !! "generate_pdf" with
               | Some v => py_bool v
               | None => false
               end) /\
  (forall e, _load_context_from_request ct rd = Raise e ->
             exists detail, e = HTTPException 400 detail).
Proof.
  intros Hct. unfold _load_context_from_request. rewrite Hct. split.
  - intros ctx flag. split.
    + destruct rd as [| | | | | | d | |]; try discriminate.
      cbn [isinstance_dict negb py_get].
      destruct (d !! "data") as [[| | | | | | c | |]|] eqn:Hdata; try discriminate.
      intros [= <- <-]. exists d. split; [done |]. split; [done |].
      by destruct (d !! "generate_pdf").
    + intros (d & -> & Hdata & ->). cbn [isinstance_dict negb py_get].
      rewrite Hdata. by destruct (d !! "generate_pdf").
  - intros e. destruct rd as [| | | | | | d | |]; cbn [isinstance_dict negb py_get];
      try (intros [= <-]; eauto; fail).
    destruct (d !! "data") as [[| | | | | | c | |]|]; intros [= <-]; eauto.
Qed.

(** A payload with a null [data] and one with an object [data]. *)
Lemma load_context_json_iff_witness :
  let C := Sample.collaborators Sample.soffice_ok in
  let ct := "application/json; charset=utf-8" in
  Str.contains "application/json" ct = true /\
  _load_context_from_request ct
      (PDict (<["data" := PDict Sample.ctx_one_field]> ∅))
    = Ok (Sample.ctx_one_field, false) /\
  exists detail,
    _load_context_from_request ct (PDict (<["data" := PNone]> ∅))
      = Raise (HTTPException 400 detail).
Proof.
  intros C ct.
  assert (Hct : Str.contains "application/json" ct = true) by reflexivity.
  split; [exact Hct |]. split.
  - apply (proj1 (load_context_json_iff ct _ Hct)).
    exists (<["data" := PDict Sample.ctx_one_field]> ∅).
    split; [reflexivity |]. split; reflexivity.
  - destruct (_load_context_from_request ct (PDict (<["data" := PNone]> ∅)))
      as [[c f] | e] eqn:Hrun.
    + vm_compute in Hrun. discriminate Hrun.
    + destruct (proj2 (load_context_json_iff ct _ Hct) e Hrun) as [detail ->].
      by exists detail.
Defined.



(** X3.  A form whose last [json_data] field is an uploaded file: the
    file is truthy, [json.loads] refuses it with a [TypeError], the
    handler only catches [JSONDecodeError], and the request ends with
    status 500, the store untouched. *)
Theorem generate_json_data_file `{Collaborators}
    (request : Request) (now : datetime) (fs : FS) (ct : string) (u : UploadFile) :
  headers request !! "content-type" = Some ct ->
  Str.contains "application/json" ct = false ->
  multidict_get (form request) "json_data" = Some (PUploadFile u) ->
  generate request now fs
    = (Raise (TypeError "the JSON object must be str, bytes or bytearray, not UploadFile"),
       fs) /\
  response_status
    (TypeError "the JSON object must be str, bytes or bytearray, not UploadFile") = 500.
Proof.
  intros Hheader Hct Hfield. split; [| reflexivity].
  apply generate_context_raise. unfold request_context. rewrite Hheader, Hct.
  rewrite (form_get_form request _ _ Hfield).
  unfold _load_context_from_request. rewrite Hct.
  cbn [hasattr_get negb py_get]. rewrite Hfield. reflexivity.
Qed.

(** A multipart form that sends the file [data.json] under
    [json_data]. *)
Lemma generate_json_data_file_witness :
  let C := Sample.collaborators Sample.soffice_ok in
  let u := {| filename := "data.json"; file := Sample.text_two_fields |} in
  let request := Sample.multipart_request Sample.multipart_file_body in
  form request = [("json_data", PUploadFile u)] /\
  generate request Sample.t0 Sample.fs_template
    = (Raise (TypeError "the JSON object must be str, bytes or bytearray, not UploadFile"),
       Sample.fs_template).
Proof.
  intros C u request.
  assert (Hform : form request = [("json_data", PUploadFile u)])
    by (vm_compute; reflexivity).
  split; [exact Hform |].
  refine (proj1 (generate_json_data_file request Sample.t0 Sample.fs_template
                   "multipart/form-data; boundary=x" u eq_refl eq_refl _)).
  rewrite Hform. reflexivity.
Defined.

(* ===================================================================== *)
(** ** Further properties: choosing the path *)
(* ===================================================================== *)

Section DispatchFacts.
Implicit Types (s sub pre post : string).





End DispatchFacts.



(* ===================================================================== *)
(** ** Further properties: upload, render, convert *)
(* ===================================================================== *)



(** X6.  For a conversion whose process runs: it returns exactly when
    the exit status is 0 and the PDF is there afterwards, written by this
    run or already present before it; what it returns is the PDF path in
    the output directory; any failure is an [HTTPException] with status
    500.  In particular, when the run writes nothing and a PDF of that
    name is already present, the conversion returns that older file and
    changes nothing. *)
Theorem convert_success_iff `{Collaborators}
    (p : Path) (fs : FS) (completed : CompletedProcess) (produced : option string) :
  name p <> "" ->
  soffice (soffice_command p) fs = Some (completed, produced) ->
  let pdf_path := OUTPUT_DIR // (stem p ++ ".pdf") in
  ((exists fs', _convert_to_pdf p fs = (Ok pdf_path, fs')) <->
   returncode completed = 0 /\ (is_Some produced \/ is_Some (fs !! pdf_path))) /\
  (forall r fs', _convert_to_pdf p fs = (r, fs') ->
                 r = Ok pdf_path \/ exists detail, r = Raise (HTTPException 500 detail)) /\
  (forall old, returncode completed = 0 -> produced = None ->
               fs !! pdf_path = Some old ->
               _convert_to_pdf p fs = (Ok pdf_path, fs)).
Proof.
  intros Hname Hrun pdf_path. rewrite (convert_run p fs Hname), Hrun. cbv zeta.
  fold pdf_path. split; [| split].
  - destruct (Z.eqb_spec (returncode completed) 0) as [Hz | Hnz]; cbn [negb].
    + destruct produced as [pdf|].
      * rewrite lookup_insert_eq.
        rewrite bool_decide_eq_true_2 by eauto.
        split; [intros _; split; [done | left; eauto] | eauto].
      * destruct (fs !! pdf_path) as [old|] eqn:Hold.
        -- rewrite bool_decide_eq_true_2 by eauto.
           split; [intros _; split; [done | right; eauto] | eauto].
        -- rewrite bool_decide_eq_false_2 by (intros [? ?]; discriminate).
           split; [intros [fs' Hd]; discriminate Hd |].
           intros [_ [[? Hp] | [? Hp]]]; discriminate Hp.
    + split; [intros [fs' Hd]; discriminate Hd | intros [Hz _]; contradiction].
  - intros r fs'. destruct (negb (returncode completed =? 0)).
    + intros [= <- _]. eauto.
    + destruct (bool_decide _); intros [= <- _]; eauto.
  - intros old -> -> Hold. cbn [Z.eqb negb]. rewrite Hold.
    by rewrite bool_decide_eq_true_2 by eauto.
Qed.

(** A converter that exits with status 0 and writes nothing, run where a
    PDF of the expected name is already in the output directory. *)
Lemma convert_success_iff_witness :
  let C := Sample.collaborators Sample.soffice_no_output in
  let p := OUTPUT_DIR // "output_20261103090507.docx" in
  let pdf_path := OUTPUT_DIR // "output_20261103090507.pdf" in
  let fs := <[pdf_path := Bytes "%PDF older"]> (<[p := Bytes "PKX / Y"]> Sample.fs_template) in
  _convert_to_pdf p fs = (Ok pdf_path, fs) /\
  fs !! pdf_path = Some (Bytes "%PDF older").
Proof.
  intros C p pdf_path fs.
  assert (Hname : name p <> "") by discriminate.
  destruct (convert_success_iff (H := C) p fs
              {| returncode := 0; stdout := "";
                 stderr := "warning: failed to launch javaldx" |} None Hname eq_refl)
    as (_ & _ & Hstale).
  split; [| reflexivity].
  exact (Hstale (Bytes "%PDF older") eq_refl eq_refl eq_refl).
Defined.

(** X7.  The template store keeps the last accepted upload only: an
    accepted upload gives the same response and the same store whether or
    not another upload, accepted or rejected, came before it. *)
Theorem upload_template_last_wins `{Collaborators} (f1 f2 : UploadFile) (fs : FS) :
  has_docx_extension (filename f2) ->
  upload_template f2 (upload_template f1 fs).2 = upload_template f2 fs.
Proof.
  intros Hext%has_docx_extension_iff. unfold upload_template.
  rewrite Hext. cbn [negb].
  destruct (negb (Str.endswith (Str.lower (filename f1)) ".docx")); run_monad;
    cbn [snd]; [reflexivity |].
  by rewrite insert_insert_eq.
Qed.

(** A second template uploaded over a first one. *)
Lemma upload_template_last_wins_witness :
  let C := Sample.collaborators Sample.soffice_ok in
  let f1 := {| filename := "old.docx"; file := "PKold {{a}}" |} in
  let f2 := {| filename := "new.DOCX"; file := Sample.template_bytes |} in
  has_docx_extension (filename f2) /\
  (upload_template f2 (upload_template f1 Sample.fs_empty).2).2 = Sample.fs_template.
Proof.
  intros C f1 f2.
  assert (Hext : has_docx_extension (filename f2)).
  { rewrite has_docx_extension_iff. vm_compute. reflexivity. }
  split; [exact Hext |].
  rewrite (upload_template_last_wins f1 f2 Sample.fs_empty Hext). reflexivity.
Defined.

(* ===================================================================== *)
(** ** Further properties: the generate handler *)
(* ===================================================================== *)

Section GenerateRun.
Context `{Collaborators}.
Implicit Types (p q : Path) (fs : FS) (now : datetime) (ctx : gmap string pyval).

(** What a conversion does to the store: nothing, or it writes the PDF
    sibling of its input. *)
Lemma convert_store p fs (r : result Path) fs' :
  _convert_to_pdf p fs = (r, fs') ->
  fs' = fs \/ exists pdf, fs' = <[OUTPUT_DIR // (stem p ++ ".pdf") := Bytes pdf]> fs.
Proof.
  intros Hrun.
  destruct (decide (name p = "")) as [Hn | Hn].
  - unfold _convert_to_pdf, with_suffix in Hrun. rewrite Hn in Hrun.
    unfold bind, lift in Hrun. injection Hrun as _ <-. by left.
  - rewrite (convert_run p fs Hn) in Hrun.
    destruct (soffice _ fs) as [[completed produced]|];
      [| injection Hrun as _ <-; by left].
    cbv zeta in Hrun.
    assert (Hfs : fs' = match produced with
                        | Some pdf => <[OUTPUT_DIR // (stem p ++ ".pdf") := Bytes pdf]> fs
                        | None => fs
                        end).
    { destruct (negb (returncode completed =? 0)); [by injection Hrun as _ <- |].
      destruct (bool_decide _); by injection Hrun as _ <-. }
    destruct produced as [pdf|]; [right; eauto | by left].
Qed.

(** The errors a conversion can raise. *)
Lemma convert_raise_kind p fs e fs' :
  _convert_to_pdf p fs = (Raise e, fs') ->
  (exists msg, e = ValueError msg) \/ (exists what, e = FileNotFoundError what) \/
  (exists detail, e = HTTPException 500 detail).
Proof.
  intros Hrun.
  destruct (decide (name p = "")) as [Hn | Hn].
  - unfold _convert_to_pdf, with_suffix in Hrun. rewrite Hn in Hrun.
    unfold bind, lift in Hrun. injection Hrun as <- _. left. eauto.
  - rewrite (convert_run p fs Hn) in Hrun.
    destruct (soffice _ fs) as [[completed produced]|];
      [| injection Hrun as <- _; right; left; eauto].
    cbv zeta in Hrun. right. right.
    destruct (negb (returncode completed =? 0)); [injection Hrun as <- _; eauto |].
    destruct (bool_decide _); [discriminate Hrun | injection Hrun as <- _; eauto].
Qed.

Lemma generate_render_raise (request : Request) ctx (flag : bool) now fs e fs1 :
  request_context request = Ok (ctx, flag) ->
  _render_docx ctx now fs = (Raise e, fs1) ->
  generate request now fs = (Raise e, fs1).
Proof.
  intros Hctx Hrender. rewrite (generate_context_ok request now fs ctx flag Hctx).
  unfold bind at 1. by rewrite Hrender.
Qed.

Lemma generate_docx_ok (request : Request) ctx now fs p fs1 :
  request_context request = Ok (ctx, false) ->
  _render_docx ctx now fs = (Ok p, fs1) ->
  generate request now fs
  = (Ok {| resp_path := p; resp_media_type := DOCX_MEDIA_TYPE;
           resp_filename := name p; resp_background := None |}, fs1).
Proof.
  intros Hctx Hrender. rewrite (generate_context_ok request now fs ctx false Hctx).
  unfold bind at 1. by rewrite Hrender.
Qed.

Lemma generate_convert_raise (request : Request) ctx now fs p fs1 e fs2 :
  request_context request = Ok (ctx, true) ->
  _render_docx ctx now fs = (Ok p, fs1) ->
  _convert_to_pdf p fs1 = (Raise e, fs2) ->
  generate request now fs = (Raise e, fs2).
Proof.
  intros Hctx Hrender Hconvert.
  rewrite (generate_context_ok request now fs ctx true Hctx).
  unfold bind at 1. rewrite Hrender. cbn [negb].
  unfold bind at 1. by rewrite Hconvert.
Qed.

(** A request for both formats whose render and conversion return: the
    archive is written from the two artifacts. *)
Lemma generate_pdf_ok (request : Request) ctx now fs p fs1 pdf_p fs2 :
  request_context request = Ok (ctx, true) ->
  _render_docx ctx now fs = (Ok p, fs1) ->
  _convert_to_pdf p fs1 = (Ok pdf_p, fs2) ->
  exists docx pdf,
    p = OUTPUT_DIR // docx_name now /\ pdf_p = OUTPUT_DIR // pdf_name now /\
    fs2 !! p = Some docx /\ fs2 !! pdf_p = Some pdf /\
    generate request now fs
    = (Ok {| resp_path := TMP_DIR // zip_name now;
             resp_media_type := "application/zip";
             resp_filename := zip_name now;
             resp_background := Some (UnlinkMissingOk (TMP_DIR // zip_name now)) |},
       <[TMP_DIR // zip_name now
         := ZipArchive [(docx_name now, docx); (pdf_name now, pdf)]]> fs2).
Proof.
  intros Hctx Hrender Hconvert.
  destruct (render_docx_ok _ _ _ _ _ Hrender) as (Hp & rendered & Hfs1).
  destruct (convert_ok _ _ _ _ Hconvert) as (Hpdf_p & [pdf Hpdf]).
  assert (Hdocx : fs2 !! p = Some (Bytes (docx_save rendered))).
  { rewrite (convert_frame p fs1 (Ok pdf_p) fs2 p Hconvert).
    - rewrite Hfs1. apply lookup_insert_eq.
    - rewrite Hp at 2. rewrite stem_pdf_name. rewrite Hp.
      apply artifact_not_its_pdf. }
  rewrite Hp, stem_pdf_name in Hpdf_p.
  exists (Bytes (docx_save rendered)), pdf.
  split; [exact Hp |]. split; [exact Hpdf_p |]. split; [exact Hdocx |].
  split; [exact Hpdf |].
  rewrite (generate_context_ok request now fs ctx true Hctx).
  unfold bind at 1. rewrite Hrender. cbn [negb].
  unfold bind at 1. rewrite Hconvert.
  subst p pdf_p. rewrite replace_output_stem. fold (zip_name now). cbn [name].
  by rewrite (package_run (OUTPUT_DIR // docx_name now) (OUTPUT_DIR // pdf_name now)
                (TMP_DIR // zip_name now) _ _ (Bytes (docx_save rendered)) pdf).
Qed.

Lemma json_loads_obj_raise (obj : pyval) e :
  json_loads_obj obj = Raise e ->
  (exists msg, e = JSONDecodeError msg) \/ (exists msg, e = TypeError msg).
Proof.
  unfold json_loads_obj.
  destruct obj; try (intros [= <-]; right; eauto; fail).
  destruct (json_loads s); intros [= <-]. left. eauto.
Qed.

Lemma in_on_True_true_raise (v : pyval) e :
  in_on_True_true v = Raise e -> exists msg, e = TypeError msg.
Proof.
  unfold in_on_True_true. destruct (unhashable v); intros [= <-]. eauto.
Qed.

(** The errors of context loading: one of its own 400 messages, or a
    [TypeError]. *)
Lemma load_context_raise_kind (ct : string) (rd : pyval) e :
  _load_context_from_request ct rd = Raise e ->
  (exists detail, e = HTTPException 400 detail /\ detail <> MSG_NO_TEMPLATE) \/
  (exists msg, e = TypeError msg).
Proof.
  unfold _load_context_from_request.
  destruct (Str.contains "application/json" ct).
  - destruct (isinstance_dict rd); cbn [negb].
    + destruct (py_get rd "data" PNone); intros [= <-]; left; eexists;
        (split; [reflexivity | discriminate]).
    + intros [= <-]. left. eexists. split; [reflexivity | discriminate].
  - destruct (hasattr_get rd); cbn [negb];
      [| intros [= <-]; left; eexists; split; [reflexivity | discriminate]].
    destruct (py_bool (py_get rd "json_data" PNone)); cbn [negb];
      [| intros [= <-]; left; eexists; split; [reflexivity | discriminate]].
    destruct (json_loads_obj (py_get rd "json_data" PNone)) as [parsed | e0] eqn:Hparse.
    + destruct (in_on_True_true (py_get rd "generate_pdf" PNone)) as [flag | e1] eqn:Hin.
      * destruct parsed; intros [= <-]; left; eexists;
          (split; [reflexivity | discriminate]).
      * intros [= <-]. right. by apply in_on_True_true_raise in Hin.
    + destruct (json_loads_obj_raise _ _ Hparse) as [[msg ->] | [msg ->]].
      * intros [= <-]. left. eexists. split; [reflexivity |].
        intros E. vm_compute in E. discriminate E.
      * intros [= <-]. right. eauto.
Qed.

(** Context loading never raises the template-missing error. *)
Lemma request_context_not_template (request : Request) :
  request_context request <> Raise (HTTPException 400 MSG_NO_TEMPLATE).
Proof.
  unfold request_context. intros E.
  destruct (Str.contains "application/json" _).
  - destruct (json_loads_obj (PStr (body request))) as [payload | e0] eqn:Hparse.
    + apply load_context_raise_kind in E as [(detail & [= <-] & Hne) | [msg Hm]];
        [done | discriminate Hm].
    + injection E as ->.
      apply json_loads_obj_raise in Hparse as [[msg Hm] | [msg Hm]]; discriminate Hm.
  - destruct (_get_form request) as [items | e0] eqn:Hform.
    + apply load_context_raise_kind in E as [(detail & [= <-] & Hne) | [msg Hm]];
        [done | discriminate Hm].
    + injection E as ->. unfold _get_form in Hform.
      repeat case_match; discriminate Hform.
Qed.

End GenerateRun.

(** X8.  [generate] ends with the template-missing error exactly when no
    template is stored and the context of the request loads; the store is
    then unchanged.  No other failure of the handler, in any of its
    steps, shows that error. *)
Theorem template_missing_iff `{Collaborators}
    (request : Request) (now : datetime) (fs fs' : FS) :
  generate request now fs
    = (Raise (HTTPException 400 "尚未上傳母版 template.docx"), fs') <->
  fs !! template_path = None /\
  (exists ctx flag, request_context request = Ok (ctx, flag)) /\
  fs' = fs.
Proof.
  split.
  - intros Hrun.
    destruct (request_context request) as [[ctx flag] | e] eqn:Hctx.
    + destruct (_render_docx ctx now fs) as [[p | e] fs1] eqn:Hrender.
      * destruct flag.
        -- destruct (_convert_to_pdf p fs1) as [[pdf_p | e] fs2] eqn:Hconvert.
           ++ destruct (generate_pdf_ok request ctx now fs p fs1 pdf_p fs2
                          Hctx Hrender Hconvert) as (? & ? & _ & _ & _ & _ & Hok).
              rewrite Hok in Hrun. discriminate Hrun.
           ++ rewrite (generate_convert_raise request ctx now fs p fs1 e fs2
                         Hctx Hrender Hconvert) in Hrun.
              injection Hrun as -> _.
              destruct (convert_raise_kind _ _ _ _ Hconvert)
                as [[? Hk] | [[? Hk] | [? Hk]]]; discriminate Hk.
        -- rewrite (generate_docx_ok request ctx now fs p fs1 Hctx Hrender) in Hrun.
           discriminate Hrun.
      * rewrite (generate_render_raise request ctx flag now fs e fs1 Hctx Hrender)
          in Hrun.
        injection Hrun as -> ->.
        rewrite render_docx_run in Hrender.
        destruct (fs !! template_path) as [template|].
        -- destruct (DocxTemplate template) as [d | exc]; [| discriminate Hrender].
           destruct (docx_render d ctx jinja_env) as [rendered | exc];
             [discriminate Hrender |].
           injection Hrender as E _. vm_compute in E. discriminate E.
        -- injection Hrender as <-. eauto.
    + rewrite (generate_context_raise request now fs e Hctx) in Hrun.
      injection Hrun as -> _.
      by destruct (request_context_not_template request).
  - intros (Hnone & (ctx & flag & Hctx) & ->).
    apply (generate_render_raise request ctx flag); [exact Hctx |].
    rewrite render_docx_run. by rewrite Hnone.
Qed.



(** X10.  Whatever the request and the outcome, [generate] removes no
    file and changes nothing in the upload directory, so the stored
    template is never touched; and when it fails, it has written nothing
    to the scratch directory. *)
Theorem generate_keeps_files `{Collaborators}
    (request : Request) (now : datetime) (fs : FS)
    (r : result FileResponse) (fs' : FS) :
  generate request now fs = (r, fs') ->
  (forall q, is_Some (fs !! q) -> is_Some (fs' !! q)) /\
  (forall q, parent q = UPLOAD_DIR -> fs' !! q = fs !! q) /\
  (forall e, r = Raise e -> forall q, parent q = TMP_DIR -> fs' !! q = fs !! q).
Proof.
  intros Hrun.
  assert (Hins : forall (fs0 : FS) q0 c,
             parent q0 <> UPLOAD_DIR ->
             (forall q, is_Some (fs0 !! q) -> is_Some (<[q0 := c]> fs0 !! q)) /\
             (forall q, parent q = UPLOAD_DIR -> <[q0 := c]> fs0 !! q = fs0 !! q)).
  { intros fs0 q0 c Hq0. split.
    - intros q Hq. destruct (decide (q0 = q)) as [-> | Hne].
      + rewrite lookup_insert_eq. eauto.
      + by rewrite lookup_insert_ne.
    - intros q Hq. rewrite lookup_insert_ne; [done | congruence]. }
  assert (Htmp : forall (fs0 : FS) q0 c,
             parent q0 = OUTPUT_DIR ->
             forall q, parent q = TMP_DIR -> <[q0 := c]> fs0 !! q = fs0 !! q).
  { intros fs0 q0 c Hq0 q Hq. rewrite lookup_insert_ne; [done | congruence]. }
  destruct (request_context request) as [[ctx flag] | e] eqn:Hctx.
  2: { rewrite (generate_context_raise request now fs e Hctx) in Hrun.
       injection Hrun as <- <-. done. }
  destruct (_render_docx ctx now fs) as [[p | e] fs1] eqn:Hrender.
  2: { rewrite (generate_render_raise request ctx flag now fs e fs1 Hctx Hrender) in Hrun.
       injection Hrun as <- <-.
       apply render_docx_raise in Hrender as ->. done. }
  destruct (render_docx_ok _ _ _ _ _ Hrender) as (Hp & rendered & Hfs1).
  destruct (Hins fs p (Bytes (docx_save rendered))) as [Hkeep1 Hup1];
    [rewrite Hp; discriminate |].
  rewrite <- Hfs1 in Hkeep1, Hup1.
  destruct flag.
  2: { rewrite (generate_docx_ok request ctx now fs p fs1 Hctx Hrender) in Hrun.
       injection Hrun as <- <-. split; [done |]. split; [done |]. discriminate. }
  destruct (_convert_to_pdf p fs1) as [[pdf_p | e] fs2] eqn:Hconvert.
  - destruct (generate_pdf_ok request ctx now fs p fs1 pdf_p fs2 Hctx Hrender Hconvert)
      as (docx & pdf & _ & _ & _ & _ & Hok).
    rewrite Hok in Hrun. injection Hrun as <- <-.
    destruct (convert_store _ _ _ _ Hconvert) as [-> | [pdf' ->]].
    + destruct (Hins fs1 (TMP_DIR // zip_name now)
                  (ZipArchive [(docx_name now, docx); (pdf_name now, pdf)]))
        as [Hk Hu]; [discriminate |].
      split; [| split]; [| | discriminate].
      * intros q Hq. by apply Hk, Hkeep1.
      * intros q Hq. by rewrite Hu, Hup1.
    + destruct (Hins fs1 (OUTPUT_DIR // (stem p ++ ".pdf")) (Bytes pdf'))
        as [Hk2 Hu2]; [discriminate |].
      destruct (Hins (<[OUTPUT_DIR // (stem p ++ ".pdf") := Bytes pdf']> fs1)
                  (TMP_DIR // zip_name now)
                  (ZipArchive [(docx_name now, docx); (pdf_name now, pdf)]))
        as [Hk Hu]; [discriminate |].
      split; [| split]; [| | discriminate].
      * intros q Hq. by apply Hk, Hk2, Hkeep1.
      * intros q Hq. by rewrite Hu, Hu2, Hup1.
  - rewrite (generate_convert_raise request ctx now fs p fs1 e fs2 Hctx Hrender Hconvert)
      in Hrun.
    injection Hrun as <- <-.
    assert (Htmp1 : forall q, parent q = TMP_DIR -> fs1 !! q = fs !! q).
    { intros q Hq. rewrite Hfs1. apply Htmp; [by rewrite Hp | done]. }
    destruct (convert_store _ _ _ _ Hconvert) as [-> | [pdf' ->]].
    + split; [done |]. split; [done |]. intros _ _. exact Htmp1.
    + destruct (Hins fs1 (OUTPUT_DIR // (stem p ++ ".pdf")) (Bytes pdf'))
        as [Hk2 Hu2]; [discriminate |].
      split; [| split].
      * intros q Hq. by apply Hk2, Hkeep1.
      * intros q Hq. by rewrite Hu2, Hup1.
      * intros _ _ q Hq. rewrite Htmp; [by apply Htmp1 | done | done].
Qed.

(** A conversion that fails after the render: the template and the
    scratch directory are as before. *)
Lemma generate_keeps_files_witness :
  let C := Sample.collaborators Sample.soffice_exit1 in
  let request :=
    Sample.form_request
      [("json_data", Sample.text_two_fields); ("generate_pdf", "on")] in
  exists e fs',
    generate request Sample.t0 Sample.fs_template = (Raise e, fs') /\
    fs' !! template_path = Some (Bytes Sample.template_bytes) /\
    fs' !! (TMP_DIR // "output_20261103090507.zip") = None.
Proof.
  intros C request.
  destruct (generate request Sample.t0 Sample.fs_template) as [r fs'] eqn:Hrun.
  assert (Hr : r = Raise (HTTPException 500
                            "PDF 轉換失敗: Error: source file could not be loaded")).
  { apply (f_equal fst) in Hrun. cbn [fst] in Hrun. rewrite <- Hrun.
    vm_compute. reflexivity. }
  destruct (generate_keeps_files request Sample.t0 Sample.fs_template r fs' Hrun)
    as (_ & Hup & Htmp).
  subst r. eexists _, fs'. split; [reflexivity |]. split.
  - rewrite Hup; reflexivity.
  - rewrite (Htmp _ eq_refl); reflexivity.
Defined.

(* ===================================================================== *)
(** ** Further properties: the home page *)
(* ===================================================================== *)

(** X11.  [home] returns a page and leaves the store as it is; the page
    shows the status text [已上傳] exactly when a template is stored, and
    [尚未上傳] exactly when none is. *)
Theorem home_reports_template (fs : FS) :
  exists page,
    home fs = (Ok page, fs) /\
    (Str.contains "已上傳" page = true <-> is_Some (fs !! template_path)) /\
    (Str.contains "尚未上傳" page = true <-> fs !! template_path = None).
Proof.
  unfold home, render_homepage, template_path. run_monad.
  destruct (fs !! (UPLOAD_DIR // TEMPLATE_NAME)) as [c|] eqn:Htpl.
  - rewrite bool_decide_eq_true_2 by eauto.
    eexists. split; [reflexivity |]. split.
    + split; [eauto | intros _; vm_compute; reflexivity].
    + split; [intros E; vm_compute in E; discriminate E | discriminate].
  - rewrite bool_decide_eq_false_2 by (intros [? ?]; discriminate).
    eexists. split; [reflexivity |]. split.
    + split; [intros E; vm_compute in E; discriminate E | intros [? ?]; discriminate].
    + split; [done | intros _; vm_compute; reflexivity].
Qed.

(** The page before and after a template is uploaded. *)
Lemma home_reports_template_witness :
  let C := Sample.collaborators Sample.soffice_ok in
  let doc := {| filename := "template.docx"; file := Sample.template_bytes |} in
  (exists page, home Sample.fs_empty = (Ok page, Sample.fs_empty) /\
                Str.contains "尚未上傳" page = true) /\
  (exists page, home (upload_template doc Sample.fs_empty).2
                  = (Ok page, (upload_template doc Sample.fs_empty).2) /\
                Str.contains "已上傳" page = true).
Proof.
  intros C doc. split.
  - destruct (home_reports_template Sample.fs_empty) as (page & Hrun & _ & Hnone).
    exists page. split; [exact Hrun |]. apply Hnone. reflexivity.
  - destruct (home_reports_template (upload_template doc Sample.fs_empty).2)
      as (page & Hrun & Hsome & _).
    exists page. split; [exact Hrun |]. apply Hsome.
    vm_compute. eauto.
Defined.

(** X12.  The page pre-fills the [json_data] box with a text that opens
    with two braces, [{{], where the f-string has four.  Submitted as it
    stands, in a form, to a parser that rejects it, the text is answered
    with the 400 parse error. *)
Theorem home_default_json_rejected `{Collaborators}
    (fs : FS) (request : Request) (now : datetime) (ct exc : string) :
  (exists page,
     home fs = (Ok page, fs) /\
     Str.contains ("<textarea name=" ++ DQ ++ "json_data" ++ DQ ++ " required>"
                   ++ HOMEPAGE_JSON ++ "</textarea>") page = true) /\
  String.prefix "{{" HOMEPAGE_JSON = true /\
  (headers request !! "content-type" = Some ct ->
   Str.contains "application/json" ct = false ->
   multidict_get (form request) "json_data" = Some (PStr HOMEPAGE_JSON) ->
   json_loads HOMEPAGE_JSON = inr exc ->
   generate request now fs
   = (Raise (HTTPException 400 ("JSON 解析錯誤: " ++ exc)), fs)).
Proof.
  split; [| split].
  - unfold home, render_homepage. run_monad.
    destruct (bool_decide _); eexists; (split; [reflexivity |]);
      vm_compute; reflexivity.
  - reflexivity.
  - intros Hheader Hct Hfield Hparse.
    apply (generate_form_malformed request now fs ct HOMEPAGE_JSON exc);
      [done | done | done | | done].
    intros E. vm_compute in E. discriminate E.
Qed.

(** The form of the page submitted unchanged. *)
Lemma home_default_json_rejected_witness :
  let C := SamplePage.collaborators in
  let request := Sample.form_request [("json_data", HOMEPAGE_JSON)] in
  json_loads HOMEPAGE_JSON
    = inr "Expecting property name enclosed in double quotes: line 1 column 2 (char 1)" /\
  generate request Sample.t0 Sample.fs_template
    = (Raise (HTTPException 400
        "JSON 解析錯誤: Expecting property name enclosed in double quotes: line 1 column 2 (char 1)"),
       Sample.fs_template).
Proof.
  intros C request.
  assert (Hparse : json_loads HOMEPAGE_JSON
    = inr "Expecting property name enclosed in double quotes: line 1 column 2 (char 1)")
    by (vm_compute; reflexivity).
  split; [exact Hparse |].
  destruct (home_default_json_rejected (H := C) Sample.fs_template request Sample.t0
              "application/x-www-form-urlencoded"
              "Expecting property name enclosed in double quotes: line 1 column 2 (char 1)")
    as (_ & _ & Hrun).
  exact (Hrun eq_refl eq_refl eq_refl Hparse).
Defined.

(* ===================================================================== *)
(** ** Further properties: the order of artifact names *)
(* ===================================================================== *)

Section SortFacts.
Implicit Types (s t pre : string) (n m x y : Z).

Lemma ascii_compare_refl (a : ascii) : Ascii.compare a a = Eq.
Proof. apply N.compare_refl. Qed.

Lemma compare_app_same pre s t :
  String.compare (pre ++ s) (pre ++ t) = String.compare s t.
Proof.
  induction pre as [|a pre IH]; [done |].
  rewrite !app_cons. cbn [String.compare]. by rewrite ascii_compare_refl.
Qed.

(** Digit characters compare as the digits they show. *)
Lemma ascii_compare_digit x y :
  Ascii.compare (digit x) (digit y) = (x mod 10 ?= y mod 10).
Proof.
  assert (Hx : 0 <= x mod 10 < 10) by (apply Z.mod_pos_bound; lia).
  assert (Hy : 0 <= y mod 10 < 10) by (apply Z.mod_pos_bound; lia).
  unfold Ascii.compare, digit.
  rewrite !N_ascii_embedding by lia.
  rewrite Z2N.inj_compare by lia.
  apply Z.add_compare_mono_l.
Qed.

(** Comparing two numbers is comparing their tens, then their units. *)
Lemma compare_div10 n m :
  (n ?= m) = match n / 10 ?= m / 10 with
             | Eq => n mod 10 ?= m mod 10
             | c => c
             end.
Proof.
  destruct (Z.compare_spec (n / 10) (m / 10));
    destruct (Z.compare_spec (n mod 10) (m mod 10));
    destruct (Z.compare_spec n m); try reflexivity;
    exfalso; Z.div_mod_to_equations; lia.
Qed.

Lemma compare_pad2 x y s t :
  0 <= x < 100 -> 0 <= y < 100 ->
  String.compare (pad2 x ++ s) (pad2 y ++ t)
  = match x ?= y with Eq => String.compare s t | c => c end.
Proof.
  intros Hx Hy. unfold pad2. rewrite !app_cons, !app_nil_l.
  cbn [String.compare]. rewrite !ascii_compare_digit.
  rewrite (compare_div10 x y).
  rewrite (Z.mod_small (x / 10) 10) by (Z.div_mod_to_equations; lia).
  rewrite (Z.mod_small (y / 10) 10) by (Z.div_mod_to_equations; lia).
  destruct (x / 10 ?= y / 10); [| reflexivity..].
  destruct (x mod 10 ?= y mod 10); reflexivity.
Qed.

Lemma compare_pad4 n m s t :
  0 <= n < 10000 -> 0 <= m < 10000 ->
  String.compare (pad4 n ++ s) (pad4 m ++ t)
  = match n ?= m with Eq => String.compare s t | c => c end.
Proof.
  intros Hn Hm. unfold pad4. rewrite !app_cons, !app_nil_l.
  cbn [String.compare]. rewrite !ascii_compare_digit.
  assert (Hn2 : n / 10 / 10 = n / 100) by (Z.div_mod_to_equations; lia).
  assert (Hm2 : m / 10 / 10 = m / 100) by (Z.div_mod_to_equations; lia).
  assert (Hn3 : n / 100 / 10 = n / 1000) by (Z.div_mod_to_equations; lia).
  assert (Hm3 : m / 100 / 10 = m / 1000) by (Z.div_mod_to_equations; lia).
  rewrite (compare_div10 n m), (compare_div10 (n / 10) (m / 10)), Hn2, Hm2.
  rewrite (compare_div10 (n / 100) (m / 100)), Hn3, Hm3.
  rewrite (Z.mod_small (n / 1000) 10) by (Z.div_mod_to_equations; lia).
  rewrite (Z.mod_small (m / 1000) 10) by (Z.div_mod_to_equations; lia).
  destruct (n / 1000 ?= m / 1000); [| reflexivity..].
  destruct (n / 100 mod 10 ?= m / 100 mod 10); [| reflexivity..].
  destruct (n / 10 mod 10 ?= m / 10 mod 10); [| reflexivity..].
  destruct (n mod 10 ?= m mod 10); reflexivity.
Qed.

End SortFacts.

(** X13.  Artifact names sort as their clock readings do: for readings
    in the years of four digits, comparing two names byte by byte gives
    the comparison of the readings from the year down to the second. *)
Theorem artifact_names_sort_by_time (a b : datetime) :
  datetime_ok a -> datetime_ok b ->
  String.compare (docx_name a) (docx_name b) = chronological a b.
Proof.
  intros (Hy & Hm & Hd & Hh & Hmi & Hs & _) (Hy' & Hm' & Hd' & Hh' & Hmi' & Hs' & _).
  unfold docx_name, strftime_YmdHMS, chronological.
  rewrite compare_app_same, !append_assoc.
  rewrite compare_pad4 by lia.
  destruct (year a ?= year b); [| reflexivity..].
  rewrite compare_pad2 by lia.
  destruct (month a ?= month b); [| reflexivity..].
  rewrite compare_pad2 by lia.
  destruct (day a ?= day b); [| reflexivity..].
  rewrite compare_pad2 by lia.
  destruct (hour a ?= hour b); [| reflexivity..].
  rewrite compare_pad2 by lia.
  destruct (minute a ?= minute b); [| reflexivity..].
  rewrite compare_pad2 by lia.
  destruct (second a ?= second b); reflexivity.
Qed.

(** Two readings one second apart, and two within one second. *)
Lemma artifact_names_sort_by_time_witness :
  datetime_ok Sample.t0 /\ datetime_ok Sample.t1 /\
  String.compare (docx_name Sample.t0) (docx_name Sample.t1) = Lt /\
  String.compare (docx_name Sample.t0) (docx_name Sample.t0_later) = Eq.
Proof.
  assert (H0 : datetime_ok Sample.t0) by (vm_compute; intuition discriminate).
  assert (H1 : datetime_ok Sample.t1) by (vm_compute; intuition discriminate).
  assert (H2 : datetime_ok Sample.t0_later) by (vm_compute; intuition discriminate).
  split; [exact H0 |]. split; [exact H1 |]. split.
  - rewrite (artifact_names_sort_by_time Sample.t0 Sample.t1 H0 H1). reflexivity.
  - rewrite (artifact_names_sort_by_time Sample.t0 Sample.t0_later H0 H2). reflexivity.
Defined.

(* ===================================================================== *)
(** ** Further properties: upload, then generate *)
(* ===================================================================== *)

(** X14.  After an accepted upload, a [generate] request without
    conversion works on the uploaded bytes and on nothing that was stored
    before: it returns the artifact rendered from them, or fails with
    status 400 when the rendering raises, or with status 500 when
    building the template object raises.  The upload only looked at the
    file name: uploaded bytes that are not a document are stored all the
    same, and with the constructor of docxtpl, which reads nothing, they
    fail in the rendering, with status 400. *)
Theorem upload_then_generate `{Collaborators}
    (f : UploadFile) (request : Request) (ctx : gmap string pyval)
    (now : datetime) (fs : FS) :
  has_docx_extension (filename f) ->
  request_context request = Ok (ctx, false) ->
  let fs1 := (upload_template f fs).2 in
  generate request now fs1 =
  match DocxTemplate (Bytes (file f)) with
  | inr exc => (Raise (HTTPException 500 ("無法載入母版: " ++ exc)), fs1)
  | inl d =>
      match docx_render d ctx {| autoescape := false; undefined := StrictUndefined |} with
      | inr exc => (Raise (HTTPException 400 ("產生內容失敗: " ++ exc)), fs1)
      | inl rendered =>
          (Ok {| resp_path := OUTPUT_DIR // docx_name now;
                 resp_media_type := DOCX_MEDIA_TYPE;
                 resp_filename := docx_name now;
                 resp_background := None |},
           <[OUTPUT_DIR // docx_name now := Bytes (docx_save rendered)]> fs1)
      end
  end.
Proof.
  intros Hext%has_docx_extension_iff Hctx fs1.
  assert (Htpl : fs1 !! template_path = Some (Bytes (file f))).
  { unfold fs1, upload_template. rewrite Hext. cbn [negb]. run_monad. cbn [snd].
    apply lookup_insert_eq. }
  destruct (_render_docx ctx now fs1) as [[p | e] fs2] eqn:Hrender.
  - rewrite (generate_docx_ok request ctx now fs1 p fs2 Hctx Hrender).
    rewrite render_docx_run, Htpl in Hrender. fold jinja_env.
    destruct (DocxTemplate (Bytes (file f))) as [d | exc]; [| discriminate Hrender].
    destruct (docx_render d ctx jinja_env) as [rendered | exc]; [| discriminate Hrender].
    by injection Hrender as <- <-.
  - rewrite (generate_render_raise request ctx false now fs1 e fs2 Hctx Hrender).
    rewrite render_docx_run, Htpl in Hrender. fold jinja_env.
    destruct (DocxTemplate (Bytes (file f))) as [d | exc].
    + destruct (docx_render d ctx jinja_env) as [rendered | exc];
        [discriminate Hrender |].
      by injection Hrender as <- <-.
    + by injection Hrender as <- <-.
Qed.

(** A template uploaded over an older one and then rendered, and a text
    file uploaded under a Word name, which the rendering cannot read. *)
Lemma upload_then_generate_witness :
  let C := Sample.collaborators Sample.soffice_ok in
  let request := Sample.form_request [("json_data", Sample.text_two_fields)] in
  let old := <[template_path := Bytes "PKold {{a}}"]> Sample.fs_empty in
  let good := {| filename := "template.docx"; file := Sample.template_bytes |} in
  let bad := {| filename := "notes.docx"; file := "plain text" |} in
  (exists response fs',
     generate request Sample.t0 (upload_template good old).2 = (Ok response, fs') /\
     fs' !! (OUTPUT_DIR // "output_20261103090507.docx") = Some (Bytes "PKX / Y")) /\
  generate request Sample.t0 (upload_template bad old).2
    = (Raise (HTTPException 400 "產生內容失敗: File is not a zip file"),
       (upload_template bad old).2).
Proof.
  intros C request old good bad.
  assert (Hctx : request_context request = Ok (Sample.ctx_two_fields, false))
    by reflexivity.
  assert (Hgood : has_docx_extension (filename good)).
  { rewrite has_docx_extension_iff. vm_compute. reflexivity. }
  assert (Hbad : has_docx_extension (filename bad)).
  { rewrite has_docx_extension_iff. vm_compute. reflexivity. }
  split.
  - eexists _, _. split.
    + exact (upload_then_generate good request Sample.ctx_two_fields Sample.t0 old
               Hgood Hctx).
    + vm_compute. reflexivity.
  - exact (upload_then_generate bad request Sample.ctx_two_fields Sample.t0 old
             Hbad Hctx).
Defined.
